(** * qboost demo: the training-and-evaluation pipeline of [demo.py]

    A shallow embedding of [demo.py] (the comparison harness of the
    qboost repository): the command-line entry point, the train/test
    partition of the two data sets, the preprocessing of the feature
    matrices, the four model adapters driven by [train_models], the
    accuracy metric and the fixed-width report.

    Python values are modelled as follows.
    - [int] is [Z]; [len] of a sequence is [Z.of_nat (length _)].
    - [str] is [string]; a [print] call appends one entry to the
      standard-output log.
    - a 1-D array is a [list], a 2-D array the [list] of its rows.
    - an exception is a value of [exn]; code that may raise lives in the
      monad [M], which threads the log of observable events.
    - the [float] returned by the accuracy metric is a [pyfloat]: the
      correctly rounded binary64 quotient of two integers, or [nan]. *)

From Stdlib Require Import ZArith List Bool Lia Permutation.
From Stdlib Require Import Strings.String Strings.Ascii Numbers.DecimalString.
From Stdlib Require Floats.PrimFloat Floats.FloatOps Numbers.Cyclic.Int63.Uint63.
Import ListNotations.

Set Implicit Arguments.

(* ================================================================= *)
(** ** Python strings and [str.format] *)

Module PyStr.

Local Open Scope string_scope.

(** The newline character of ['\n']. *)
Definition nl : string := String (ascii_of_nat 10) EmptyString.

(** [c * n] for a one-character string [c], as in ['=' * 28]. *)
Fixpoint repeat_char (c : ascii) (n : nat) : string :=
  match n with
  | O => EmptyString
  | S k => String c (repeat_char c k)
  end.

Definition spaces (n : nat) : string := repeat_char " "%char n.

(** [str.ljust(width)]: the alignment [<], the default one of [str]. *)
Definition ljust (width : nat) (s : string) : string :=
  s ++ spaces (width - String.length s).

(** [str.rjust(width)]: the alignment [>], the default one of numbers. *)
Definition rjust (width : nat) (s : string) : string :=
  spaces (width - String.length s) ++ s.

(** [str(n)] for a Python [int]. *)
Definition str_of_int (n : Z) : string :=
  NilZero.string_of_int (Z.to_int n).

(** One decimal digit, [0 <= d < 10]. *)
Definition digit (d : Z) : string :=
  String (ascii_of_nat (48 + Z.to_nat d)) EmptyString.

(** [' '.join(xs)], the separator that [print] puts between its arguments. *)
Definition print_args (xs : list string) : string := String.concat " " xs.

End PyStr.

(* ================================================================= *)
(** ** The floats of the accuracy metric *)

Module PyFloat.

Local Open Scope Z_scope.

(** A non-negative binary64 value [mant / 2^expo], or [nan].  Only the
    values that [count / n] can take are needed. *)
Inductive pyfloat : Type :=
| Dyadic (mant : Z) (expo : Z)
| NaN.

(** Round-half-even of [num / den] to an integer, [den > 0]. *)
Definition round_half_even (num den : Z) : Z :=
  let q := num / den in
  let r := num mod den in
  if 2 * r <? den then q
  else if den <? 2 * r then q + 1
  else if Z.even q then q else q + 1.

(** [float(c) / float(n)] in binary64, for [0 <= c] and [0 <= n] below
    [2^53] (so that both conversions are exact): the quotient is rounded
    to 53 significant bits, ties to even.  [0.0 / 0] is [nan], as NumPy
    computes the mean of an empty array. *)
Definition true_divide (c n : Z) : pyfloat :=
  if n =? 0 then NaN
  else if c =? 0 then Dyadic 0 0
  else
    let k0 := 52 + Z.log2 n - Z.log2 c in
    let k := if (c * 2 ^ k0) / n <? 2 ^ 52 then k0 + 1 else k0 in
    Dyadic (round_half_even (c * 2 ^ k) n) k.

(** The same quotient by the binary64 division of the primitive floats,
    as sign, mantissa and exponent. *)
Definition binary64_quotient (c n : Z) : SpecFloat.spec_float :=
  FloatOps.Prim2SF (PrimFloat.div (PrimFloat.of_uint63 (Uint63.of_Z c))
                         (PrimFloat.of_uint63 (Uint63.of_Z n))).

(** [true_divide c n] and [binary64_quotient c n] are the same number:
    [mant / 2^expo] against [mantissa * 2^exponent]. *)
Definition agrees_with_binary64 (c n : Z) : bool :=
  match true_divide c n, binary64_quotient c n with
  | Dyadic m k, SpecFloat.S754_finite false pm pe =>
      Z.pos pm * 2 ^ (k + pe + 64) =? m * 2 ^ 64
  | Dyadic 0 _, SpecFloat.S754_zero false => true
  | NaN, SpecFloat.S754_nan => true
  | _, _ => false
  end.

(** All the quotients [c / n] with [0 <= c <= n <= bound]. *)
Definition quotients_upto (bound : nat) : list (Z * Z) :=
  flat_map (fun n => map (fun c => (Z.of_nat c, Z.of_nat n)) (seq 0 (S n)))
           (seq 0 (S bound)).

(** [format(x, '.2f')]: the exact binary value rounded to two decimals,
    ties to even, as CPython's correctly rounded conversion does. *)
Definition format_2f (x : pyfloat) : string :=
  match x with
  | NaN => "nan"%string
  | Dyadic m k =>
      let cents := round_half_even (100 * m) (2 ^ k) in
      (PyStr.str_of_int (cents / 100) ++ "."
         ++ PyStr.digit ((cents / 10) mod 10) ++ PyStr.digit (cents mod 10))%string
  end.

(** ['{:5.2f}'.format(x)]. *)
Definition format_5_2f (x : pyfloat) : string := PyStr.rjust 5 (format_2f x).

(** ['{:<7.2f}'.format(x)]. *)
Definition format_l7_2f (x : pyfloat) : string := PyStr.ljust 7 (format_2f x).

(** The float is an accuracy: a value between 0 and 1, or [nan]. *)
Definition unit_interval (x : pyfloat) : Prop :=
  match x with
  | NaN => True
  | Dyadic m k => 0 <= k /\ 0 <= m <= 2 ^ k
  end.

End PyFloat.

(* ================================================================= *)
(** ** Exceptions, observable events and the monad of the program *)

Module Py.

(** A raised exception: [SystemExit] with its status, or any other
    exception, identified by the name of its class. *)
Inductive exn : Type :=
| SystemExit (code : Z)
| Exception (cls : string).

(** What a run lets the outside observe, in order: a [print] call, a
    write to standard error, a call of an external collaborator. *)
Inductive event : Type :=
| Stdout (text : string)
| Stderr (text : string)
| Call (callee : string).

(** The outcome of code that may raise. *)
Definition result (A : Type) : Type := (exn + A)%type.

(** Sequencing of code that may raise and prints nothing. *)
Definition and_then {A B} (r : result A) (k : A -> result B) : result B :=
  match r with
  | inl e => inl e
  | inr a => k a
  end.

(** A computation: the events it produced and how it ended. *)
Definition M (A : Type) : Type := (list event * result A)%type.

Definition ret {A} (a : A) : M A := ([], inr a).

Definition bind {A B} (c : M A) (k : A -> M B) : M B :=
  match c with
  | (log, inl e) => (log, inl e)
  | (log, inr a) => let (log', r) := k a in (log ++ log', r)
  end.

Definition raise {A} (e : exn) : M A := ([], inl e).

(** [print(text)]. *)
Definition print (text : string) : M unit := ([Stdout text], inr tt).

(** A write to [sys.stderr]. *)
Definition eprint (text : string) : M unit := ([Stderr text], inr tt).

(** A call of the external collaborator [callee], whose outcome is [r]. *)
Definition call {A} (callee : string) (r : result A) : M A := ([Call callee], r).

(** Code that raises nothing and prints nothing. *)
Definition lift {A} (r : result A) : M A := ([], r).

(** [if verbose: body]. *)
Definition when (b : bool) (body : M unit) : M unit :=
  if b then body else ret tt.

(** [for x in xs: body(x)]. *)
Fixpoint for_each {A} (xs : list A) (body : A -> M unit) : M unit :=
  match xs with
  | [] => ret tt
  | x :: rest => bind (body x) (fun _ => for_each rest body)
  end.

(** The lines that [print] wrote, in order. *)
Fixpoint stdout (log : list event) : list string :=
  match log with
  | [] => []
  | Stdout s :: rest => s :: stdout rest
  | _ :: rest => stdout rest
  end.

(** The external collaborators that were called, in order. *)
Fixpoint calls (log : list event) : list string :=
  match log with
  | [] => []
  | Call f :: rest => f :: calls rest
  | _ :: rest => calls rest
  end.

(** The exit status of the process that ran [c] as its main program: 0
    on a normal end, the status of a [SystemExit], 1 after any other
    uncaught exception. *)
Definition exit_status {A} (c : M A) : Z :=
  match snd c with
  | inr _ => 0
  | inl (SystemExit code) => code
  | inl (Exception _) => 1
  end.

(** [len(a)]. *)
Definition len {A} (a : list A) : Z := Z.of_nat (List.length a).

(** [a[:k]] for a list. *)
Definition slice_to {A} (k : Z) (a : list A) : list A :=
  if (0 <=? k)%Z then firstn (Z.to_nat k) a
  else firstn (List.length a - Z.to_nat (- k)) a.

(** [a[k:]] for a list. *)
Definition slice_from {A} (k : Z) (a : list A) : list A :=
  if (0 <=? k)%Z then skipn (Z.to_nat k) a
  else skipn (List.length a - Z.to_nat (- k)) a.

(** [a[i]] for an integer [i]: negative indices count from the end, an
    index out of range raises [IndexError]. *)
Definition getitem {A} (a : list A) (i : Z) : result A :=
  let j := if (0 <=? i)%Z then i else (len a + i)%Z in
  if (j <? 0)%Z then inl (Exception "IndexError")
  else match nth_error a (Z.to_nat j) with
       | Some x => inr x
       | None => inl (Exception "IndexError")
       end.

(** [a[idx]] for an integer array [idx] (NumPy's integer-array
    indexing): the elements of [a] at the positions listed in [idx]. *)
Fixpoint take {A} (a : list A) (idx : list Z) : result (list A) :=
  match idx with
  | [] => inr []
  | i :: rest =>
      match getitem a i with
      | inl e => inl e
      | inr x =>
          match take a rest with
          | inl e => inl e
          | inr xs => inr (x :: xs)
          end
      end
  end.

(** [np.arange(n)]. *)
Definition arange (n : Z) : list Z := map Z.of_nat (seq 0 (Z.to_nat n)).

End Py.

Declare Scope py_scope.
Delimit Scope py_scope with py.
Notation "x <- c ;; k" := (Py.bind c (fun x => k))
  (at level 61, c at next level, right associativity) : py_scope.
Notation "c ;; k" := (Py.bind c (fun _ => k))
  (at level 61, right associativity) : py_scope.

(* ================================================================= *)
(** ** The scikit-learn interface used by [demo.py] *)

Module Sklearn.

Import Py PyFloat.
Local Open Scope Z_scope.

(** A feature matrix over the scalars [F]: the list of its rows. *)
Definition matrix (F : Type) : Type := list (list F).

(** Number of positions at which two label vectors agree: the sum of the
    boolean array [y_true == y_pred]. *)
Fixpoint count_equal (y_true y_pred : list Z) : Z :=
  match y_true, y_pred with
  | t :: y_true', p :: y_pred' =>
      (if t =? p then 1 else 0) + count_equal y_true' y_pred'
  | _, _ => 0
  end.

(** Modelled from the spec: [sklearn.metrics.accuracy_score], which is
    not part of this repository.  Vectors of different lengths are
    refused with [ValueError]; otherwise the result is the mean of the
    boolean array [y_true == y_pred], a binary64 division. *)
Definition accuracy_score (y_true y_pred : list Z) : result pyfloat :=
  if (len y_true =? len y_pred)
  then inr (true_divide (count_equal y_true y_pred) (len y_true))
  else inl (Exception "ValueError").

(** The transformer interface: [fit] computes the parameters [P] from a
    matrix (and may refuse it), [transform] applies them. *)
Class Transformer (F P : Type) : Type := {
  fit : matrix F -> result P;
  transform : P -> matrix F -> matrix F
}.

(** [TransformerMixin.fit_transform]: [self.fit(X).transform(X)].  The
    object [self] holds the parameters of its last fit, if any; [fit]
    resets them, so the old ones are dropped.  The result is the
    refitted object and the transformed matrix. *)
Definition fit_transform {F P} `{Transformer F P}
    (self : option P) (X : matrix F) : result (option P * matrix F) :=
  match fit X with
  | inl e => inl e
  | inr p => inr (Some p, transform p X)
  end.

(** The estimator interface of the four adapters: [fit] takes the extra
    inputs [Extra] of the variant and may raise, [predict] returns one
    label per row, [estimator_weights] is the printed form of the
    weights. *)
Record Estimator (F Extra Model : Type) : Type := {
  est_fit : Extra -> matrix F -> list Z -> result Model;
  est_predict : Model -> matrix F -> list Z;
  estimator_weights : Model -> string
}.

End Sklearn.

(* ================================================================= *)
(** ** [demo.py] *)

Module Demo.

Import Py PyStr PyFloat Sklearn.
Local Open Scope string_scope.
Local Open Scope Z_scope.
Local Open Scope py_scope.

(** [metric], lines 32-34. *)
Definition metric (y y_pred : list Z) : result pyfloat :=
  accuracy_score y y_pred.

(** The keyword arguments [DW_PARAMS], lines 122-127. *)
Record DWParams : Type := {
  num_reads : Z;
  auto_scale : bool;
  num_spin_reversal_transforms : Z
}.

(** Everything [train_models] imports: the two preprocessing
    transformers, the sampler of the D-Wave system and the four
    classifiers.  None of them is part of [demo.py]. *)
Record Backend (F : Type) : Type := {
  scaler_params : Type;
  normalizer_params : Type;
  StandardScaler : Transformer F scaler_params;
  Normalizer : Transformer F normalizer_params;
  dwave : Type;
  embedding : Type;
  DWaveSampler : result dwave;
  EmbeddingComposite : dwave -> result embedding;
  ada_model : Type;
  wc_model : Type;
  qb_model : Type;
  qp_model : Type;
  (** [AdaBoostClassifier(n_estimators=...)] *)
  AdaBoostClassifier : Z -> Estimator F unit ada_model;
  (** [WeakClassifiers(n_estimators=..., max_depth=...)] *)
  WeakClassifiers : Z -> Z -> Estimator F unit wc_model;
  (** [QBoostClassifier(n_estimators=..., max_depth=...)]; [fit] takes
      the sampler, [lmd] and the sampler parameters. *)
  QBoostClassifier :
    Z -> Z -> Estimator F (embedding * pyfloat * DWParams) qb_model;
  (** [QboostPlus([clf, clf2, clf3])], over the three fitted models. *)
  QboostPlus :
    ada_model * wc_model * qb_model ->
    Estimator F (embedding * pyfloat * DWParams) qp_model
}.

Section Preprocess.

Context {F SP NP : Type}.
Context (scaler_cls : Transformer F SP) (normalizer_cls : Transformer F NP).

(** Lines 77-86: the scaler and the normalizer are created once, then
    [fit_transform] is called on the training matrix and again on the
    test matrix.  Returned: the two objects as the second pair of calls
    left them, and the two transformed matrices. *)
Definition preprocess (X_train X_test : matrix F)
  : result (option SP * option NP * matrix F * matrix F) :=
  let scaler : option SP := None in
  let normalizer : option NP := None in
  match fit_transform (H := scaler_cls) scaler X_train with
  | inl e => inl e
  | inr (scaler, X_train) =>
  match fit_transform (H := normalizer_cls) normalizer X_train with
  | inl e => inl e
  | inr (normalizer, X_train) =>
  match fit_transform (H := scaler_cls) scaler X_test with
  | inl e => inl e
  | inr (scaler, X_test) =>
  match fit_transform (H := normalizer_cls) normalizer X_test with
  | inl e => inl e
  | inr (normalizer, X_test) =>
      inr (scaler, normalizer, X_train, X_test)
  end end end end.

End Preprocess.

Section TrainModels.

Context {F : Type} (B : Backend F).

(** ["{:14}{:7}{:7}".format(a, b, c)] for three strings. *)
Definition format_header (a b c : string) : string :=
  ljust 14 a ++ ljust 7 b ++ ljust 7 c.

(** ["{:14}{:<7.2f}{:<7.2f}".format(name, a, b)]. *)
Definition format_row (name : string) (a b : pyfloat) : string :=
  ljust 14 name ++ format_l7_2f a ++ format_l7_2f b.

(** ['Accuracy on training set: {:5.2f}'.format(a)]. *)
Definition format_train_accuracy (a : pyfloat) : string :=
  "Accuracy on training set: " ++ format_5_2f a.

(** ['Accuracy on test set:     {:5.2f}'.format(a)]. *)
Definition format_test_accuracy (a : pyfloat) : string :=
  "Accuracy on test set:     " ++ format_5_2f a.

(** [zip(names, xs, ys)]. *)
Fixpoint zip3 {A B' C} (names : list A) (xs : list B') (ys : list C)
  : list (A * B' * C) :=
  match names, xs, ys with
  | n :: names', x :: xs', y :: ys' => (n, x, y) :: zip3 names' xs' ys'
  | _, _, _ => []
  end.

(** Lines 156-164: the comparison table. *)
Definition print_table (y_train y_test : list Z)
    (rows : list (string * list Z * list Z)) : M unit :=
  print "" ;;
  print (repeat_char "=" 28) ;;
  print (format_header "Method" "Train" "Test") ;;
  print (repeat_char "-" 28) ;;
  for_each rows (fun '(name, _y_train_pred, _y_test_pred) =>
    a <- lift (metric y_train _y_train_pred) ;;
    b <- lift (metric y_test _y_test_pred) ;;
    print (format_row name a b)) ;;
  print (repeat_char "=" 28).

(** [train_models], lines 37-164. *)
Definition train_models (X_train : matrix F) (y_train : list Z)
    (X_test : matrix F) (y_test : list Z) (lmd : pyfloat) (verbose : bool)
  : M unit :=
  let NUM_READS := 3000 in
  let NUM_WEAK_CLASSIFIERS := 35 in
  let TREE_DEPTH := 3 in
  (* define sampler *)
  dwave_sampler <- call "DWaveSampler" (DWaveSampler B) ;;
  emb_sampler <- call "EmbeddingComposite" (EmbeddingComposite B dwave_sampler) ;;
  let N_train := len X_train in
  let N_test := len X_test in
  print (print_args ["Size of training set:"; str_of_int N_train]) ;;
  print (print_args ["Size of test set:    "; str_of_int N_test]) ;;
  print (print_args ["Number of weak classifiers:"; str_of_int NUM_WEAK_CLASSIFIERS]) ;;
  print (print_args ["Tree depth:"; str_of_int TREE_DEPTH]) ;;
  (* Preprocessing data *)
  pre <- lift (preprocess (StandardScaler B) (Normalizer B) X_train X_test) ;;
  let '(_, _, X_train, X_test) := pre in
  (* Adaboost *)
  print (nl ++ "Adaboost:") ;;
  let clf := AdaBoostClassifier B NUM_WEAK_CLASSIFIERS in
  clf_ <- call "AdaBoostClassifier.fit" (est_fit clf tt X_train y_train) ;;
  let y_train_pred := est_predict clf clf_ X_train in
  let y_test_pred := est_predict clf clf_ X_test in
  a <- lift (metric y_train y_train_pred) ;;
  print (format_train_accuracy a) ;;
  a <- lift (metric y_test y_test_pred) ;;
  print (format_test_accuracy a) ;;
  (* Ensembles of Decision Tree *)
  print (nl ++ "Decision tree:") ;;
  let clf2 := WeakClassifiers B NUM_WEAK_CLASSIFIERS TREE_DEPTH in
  clf2_ <- call "WeakClassifiers.fit" (est_fit clf2 tt X_train y_train) ;;
  let y_train_pred2 := est_predict clf2 clf2_ X_train in
  let y_test_pred2 := est_predict clf2 clf2_ X_test in
  when verbose
    (print (print_args ["weights:" ++ nl; estimator_weights clf2 clf2_])) ;;
  a <- lift (metric y_train y_train_pred2) ;;
  print (format_train_accuracy a) ;;
  a <- lift (metric y_test y_test_pred2) ;;
  print (format_test_accuracy a) ;;
  (* QBoost *)
  print (nl ++ "QBoost:") ;;
  let DW_PARAMS := {| num_reads := NUM_READS;
                      auto_scale := true;
                      num_spin_reversal_transforms := 10 |} in
  let clf3 := QBoostClassifier B NUM_WEAK_CLASSIFIERS TREE_DEPTH in
  clf3_ <- call "QBoostClassifier.fit"
             (est_fit clf3 (emb_sampler, lmd, DW_PARAMS) X_train y_train) ;;
  let y_train_dw := est_predict clf3 clf3_ X_train in
  let y_test_dw := est_predict clf3 clf3_ X_test in
  when verbose
    (print (print_args ["weights" ++ nl; estimator_weights clf3 clf3_])) ;;
  a <- lift (metric y_train y_train_dw) ;;
  print (format_train_accuracy a) ;;
  a <- lift (metric y_test y_test_dw) ;;
  print (format_test_accuracy a) ;;
  (* QBoostPlus *)
  print (nl ++ "QBoostPlus:") ;;
  let clf4 := QboostPlus B (clf_, clf2_, clf3_) in
  clf4_ <- call "QboostPlus.fit"
             (est_fit clf4 (emb_sampler, lmd, DW_PARAMS) X_train y_train) ;;
  let y_train4 := est_predict clf4 clf4_ X_train in
  let y_test4 := est_predict clf4 clf4_ X_test in
  when verbose
    (print (print_args ["weights" ++ nl; estimator_weights clf4 clf4_])) ;;
  a <- lift (metric y_train y_train4) ;;
  print (format_train_accuracy a) ;;
  a <- lift (metric y_test y_test4) ;;
  print (format_test_accuracy a) ;;
  print_table y_train y_test
    (zip3 ["Adaboost"; "DecisionTree"; "Qboost"; "QboostIt"]
          [y_train_pred; y_train_pred2; y_train_dw; y_train4]
          [y_test_pred; y_test_pred2; y_test_dw; y_test4]).

End TrainModels.

(** A loaded data set, with its [data] matrix and its [target] vector. *)
Record Bunch (F T : Type) : Type := {
  data : matrix F;
  target : list T
}.

(** [2*b - 1] for a boolean [b]: the spin of a truth value. *)
Definition spin_of_bool (b : bool) : Z := 2 * (if b then 1 else 0) - 1.

(** Lines 184-187: the indices kept from the shuffled [idx] of MNIST. *)
Definition mnist_indices (idx : list Z) : list Z * list Z :=
  let n := 5000 in
  let idx := slice_to n idx in
  let idx_train := slice_to (2 * n / 3) idx in
  let idx_test := slice_from (2 * n / 3) idx in
  (idx_train, idx_test).

(** Lines 208-209: the indices of the Wisconsin data set. *)
Definition wisc_indices (idx : list Z) : list Z * list Z :=
  let idx_train := slice_to (2 * len idx / 3) idx in
  let idx_test := slice_from (2 * len idx / 3) idx in
  (idx_train, idx_test).

Section Main.

Context {F : Type} (B : Backend F).

(** The name under which the program was started. *)
Variable prog : string.

(** [repr] of a string, as the diagnostics of [argparse] quote it. *)
Variable repr : string -> string.

(** [fetch_openml('mnist_784', version=1)]: targets are strings. *)
Variable fetch_openml : result (Bunch F string).

(** [load_breast_cancer()]: targets are integers. *)
Variable load_breast_cancer : result (Bunch F Z).

(** [np.random.shuffle(idx)]: the content of [idx] after the call. *)
Variable shuffle : list Z -> list Z.

(** The [choices] of the positional argument, line 171. *)
Definition choices : list string := ["mnist"; "wisc"].

(** Lines 170-173: the parser has the single positional argument
    [dataset], given here as the token of the command line bound to it.
    A token outside [choices] makes [argparse] write the usage and an
    error to standard error and exit with status 2. *)
Definition parse_args (dataset : string) : M string :=
  if existsb (String.eqb dataset) choices then ret dataset
  else
    eprint ("usage: " ++ prog ++ " [-h] {mnist,wisc}" ++ nl) ;;
    eprint (prog ++ ": error: argument dataset: invalid choice: "
              ++ repr dataset ++ " (choose from 'mnist', 'wisc')" ++ nl) ;;
    raise (SystemExit 2).

(** Lines 181-194: the split of MNIST, from the shuffled indices. *)
Definition mnist_split (mnist : Bunch F string) (idx : list Z)
  : result (matrix F * list Z * matrix F * list Z) :=
  let '(idx_train, idx_test) := mnist_indices idx in
  and_then (take (data mnist) idx_train) (fun X_train =>
  and_then (take (data mnist) idx_test) (fun X_test =>
  and_then (take (target mnist) idx_train) (fun t_train =>
  let y_train := map (fun t => spin_of_bool (t <=? "4")%string) t_train in
  and_then (take (target mnist) idx_test) (fun t_test =>
  let y_test := map (fun t => spin_of_bool (t <=? "4")%string) t_test in
  inr (X_train, y_train, X_test, y_test))))).

(** Lines 204-215: the split of the Wisconsin data set. *)
Definition wisc_split (wisc : Bunch F Z) (idx : list Z)
  : result (matrix F * list Z * matrix F * list Z) :=
  let '(idx_train, idx_test) := wisc_indices idx in
  and_then (take (data wisc) idx_train) (fun X_train =>
  and_then (take (data wisc) idx_test) (fun X_test =>
  and_then (take (target wisc) idx_train) (fun t_train =>
  let y_train := map (fun t => 2 * t - 1) t_train in
  and_then (take (target wisc) idx_test) (fun t_test =>
  let y_test := map (fun t => 2 * t - 1) t_test in
  inr (X_train, y_train, X_test, y_test))))).

(** The main program, lines 167-217. *)
Definition main (dataset : string) : M unit :=
  dataset <- parse_args dataset ;;
  if (dataset =? "mnist")%string then
    print "MNIST handwritten digits data set:" ;;
    mnist <- call "fetch_openml" fetch_openml ;;
    let idx := arange (len (data mnist)) in
    let idx := shuffle idx in
    split <- lift (mnist_split mnist idx) ;;
    let '(X_train, y_train, X_test, y_test) := split in
    train_models B X_train y_train X_test y_test (Dyadic 1 0) false
  else if (dataset =? "wisc")%string then
    print "Wisconsin breast cancer data set:" ;;
    wisc <- call "load_breast_cancer" load_breast_cancer ;;
    let idx := arange (len (target wisc)) in
    let idx := shuffle idx in
    split <- lift (wisc_split wisc idx) ;;
    let '(X_train, y_train, X_test, y_test) := split in
    train_models B X_train y_train X_test y_test (Dyadic 1 0) false
  else ret tt.

End Main.

End Demo.

(* ================================================================= *)
(** ** Collaborators for running the pipeline on concrete inputs *)

Module Stub.

Import Py PyFloat Sklearn Demo.
Local Open Scope string_scope.
Local Open Scope Z_scope.

(** A transformer that leaves the matrix as it is and, like the
    transformers of scikit-learn, refuses a matrix without rows. *)
Definition keep : Transformer Z unit := {|
  fit := fun X => match X with
                  | [] => inl (Exception "ValueError")
                  | _ :: _ => inr tt
                  end;
  transform := fun _ X => X
|}.

Definition sign_of_first (row : list Z) : Z :=
  match row with
  | x :: _ => if 0 <=? x then 1 else -1
  | [] => 1
  end.

(** A classifier that answers the sign of the first feature. *)
Definition by_sign {Extra : Type} : Estimator Z Extra unit := {|
  est_fit := fun _ _ _ => inr tt;
  est_predict := fun _ X => map sign_of_first X;
  estimator_weights := fun _ => "[1]"
|}.

(** A classifier that always answers [label]; its [fit] ends as
    [outcome] says. *)
Definition constant {Extra : Type} (label : Z) (outcome : result unit)
  : Estimator Z Extra unit := {|
  est_fit := fun _ _ _ => outcome;
  est_predict := fun _ X => map (fun _ => label) X;
  estimator_weights := fun _ => "[1]"
|}.

(** A backend in which the fit of the QBoost classifier ends as
    [qboost] says. *)
Definition backend (qboost : result unit) : Backend Z := {|
  StandardScaler := keep;
  Normalizer := keep;
  DWaveSampler := inr tt;
  EmbeddingComposite := fun _ : unit => inr tt;
  AdaBoostClassifier := fun _ => by_sign;
  WeakClassifiers := fun _ _ => constant 1 (inr tt);
  QBoostClassifier := fun _ _ => constant (-1) qboost;
  QboostPlus := fun _ => by_sign
|}.

Definition X_train : matrix Z := [[1]; [-2]; [3]].
Definition y_train : list Z := [1; -1; -1].
Definition X_test : matrix Z := [[-1]; [2]].
Definition y_test : list Z := [-1; 1].

(** The outcome of a [fit] whose sampler cannot be reached. *)
Definition unavailable : result unit :=
  inl (Exception "SamplerUnavailableError").

(** A run on three training and two test samples. *)
Definition run (qboost : result unit) : M unit :=
  train_models (backend qboost) X_train y_train X_test y_test
    (Dyadic 1 0) false.


(** A transformer with a fitted parameter: it subtracts from every
    entry the first entry of the matrix it was fitted on. *)
Definition shift : Transformer Z Z := {|
  fit := fun X => match X with
                  | (x :: _) :: _ => inr x
                  | _ => inl (Exception "ValueError")
                  end;
  transform := fun p X => map (map (fun x => x - p)) X
|}.




(** A transformer that refuses a matrix without rows with [ValueError]
    and a matrix whose first row is empty with [IndexError]. *)
Definition picky : Transformer Z unit := {|
  fit := fun X => match X with
                  | [] => inl (Exception "ValueError")
                  | [] :: _ => inl (Exception "IndexError")
                  | _ => inr tt
                  end;
  transform := fun _ X => X
|}.

End Stub.

(* ================================================================= *)
(** ** Notions of the specification *)

Module Spec.

Import Py PyStr PyFloat Sklearn Demo.
Local Open Scope Z_scope.




(** A string left-padded to [width] characters: the padding is put on
    its left. *)
Definition left_padded (width : nat) (s : string) : string :=
  (spaces (width - String.length s) ++ s)%string.

(** The spin encoding of a binary label: [+1] or [-1]. *)
Definition is_spin (y : Z) : Prop := y = 1 \/ y = -1.

(** [train] and [test] are disjoint and jointly exhaustive over the
    index set [0 .. n-1]. *)
Definition partitions (train test : list Z) (n : Z) : Prop :=
  NoDup (train ++ test) /\ forall i, In i (train ++ test) <-> 0 <= i < n.

(** The preprocessing summary that opens the report. *)
Definition summary (N_train N_test : Z) : list string :=
  [ print_args ["Size of training set:"; str_of_int N_train];
    print_args ["Size of test set:    "; str_of_int N_test];
    "Number of weak classifiers: 35";
    "Tree depth: 3" ]%string.

(** The weights line of a headline section, printed in verbose mode. *)
Definition weights_line (verbose : bool) (label weights : string)
  : list string :=
  if verbose then [print_args [(label ++ nl)%string; weights]] else [].

(** The headline section of one adapter: its title, the weights line if
    any, the accuracy on the training set and on the test set. *)
Definition headline (title : string) (weights : list string)
    (train test : pyfloat) : list string :=
  [(nl ++ title)%string] ++ weights ++
  [ ("Accuracy on training set: " ++ format_5_2f train)%string;
    ("Accuracy on test set:     " ++ format_5_2f test)%string ].

(** A rule line of the comparison table. *)
Definition rule (c : Ascii.ascii) : string := repeat_char c 28.

(** A row of the comparison table: the name in a field of 14
    characters, each accuracy with two decimals in a field of 7, all
    aligned to the left of their fields. *)
Definition row (name : string) (train test : pyfloat) : string :=
  (ljust 14 name ++ ljust 7 (format_2f train) ++ ljust 7 (format_2f test))%string.

(** [s] is the float [x] written with two decimal places: the digits
    of a whole number of hundredths, [cents], that lies within half a
    hundredth of [x].  [nan] has no such writing. *)
Definition two_decimals (x : pyfloat) (s : string) : Prop :=
  match x with
  | NaN => False
  | Dyadic m k =>
      exists cents,
        0 <= cents /\
        2 * Z.abs (100 * m - cents * 2 ^ k) <= 2 ^ k /\
        s = (str_of_int (cents / 100) ++ "."
               ++ digit ((cents / 10) mod 10) ++ digit (cents mod 10))%string
  end.

(** An accuracy field of the table for the labels [y] of a split: seven
    characters, the accuracy [a] with two decimal places followed by
    spaces, or [nan] followed by spaces when the split is empty. *)
Definition accuracy_field (y : list Z) (a : pyfloat) (field : string) : Prop :=
  String.length field = 7%nat /\
  exists s,
    field = (s ++ spaces (7 - String.length s))%string /\
    (y <> [] -> two_decimals a s) /\
    (y = [] -> a = NaN /\ s = "nan"%string).

(** The comparison table that closes the report. *)
Definition table (rows : list (string * pyfloat * pyfloat)) : list string :=
  [ ""%string; rule "="; "Method        Train  Test   "%string; rule "-" ]
  ++ map (fun '(name, train, test) => row name train test) rows
  ++ [ rule "=" ].


(** The collaborators that [train_models] calls, in the order of the
    source. *)
Definition call_sequence : list string :=
  [ "DWaveSampler"; "EmbeddingComposite"; "AdaBoostClassifier.fit";
    "WeakClassifiers.fit"; "QBoostClassifier.fit"; "QboostPlus.fit" ]%string.

(** A line that starts with the word of the verbose mode. *)
Definition is_weights_line (line : string) : bool :=
  String.prefix "weights" line.

(** The sampler parameters of lines 122-127. *)
Definition dw_params : DWParams :=
  {| num_reads := 3000; auto_scale := true;
     num_spin_reversal_transforms := 10 |}.



End Spec.

Unset Implicit Arguments.

(* ================================================================= *)
(** ** Facts about the Python layer *)

Module PyFacts.

Import Py PyStr PyFloat.
Local Open Scope Z_scope.

Lemma len_nonneg {A} (a : list A) : 0 <= len a.
Proof. unfold len. lia. Qed.

Lemma len_app {A} (a b : list A) : len (a ++ b) = len a + len b.
Proof. unfold len. rewrite length_app. lia. Qed.

Lemma slice_to_firstn {A} (k : Z) (a : list A) :
  0 <= k -> slice_to k a = firstn (Z.to_nat k) a.
Proof.
  intros Hk. unfold slice_to.
  destruct (0 <=? k) eqn:E; [reflexivity | apply Z.leb_gt in E; lia].
Qed.

Lemma slice_from_skipn {A} (k : Z) (a : list A) :
  0 <= k -> slice_from k a = skipn (Z.to_nat k) a.
Proof.
  intros Hk. unfold slice_from.
  destruct (0 <=? k) eqn:E; [reflexivity | apply Z.leb_gt in E; lia].
Qed.

(** [a[:k] + a[k:] == a]. *)
Lemma slice_to_from {A} (k : Z) (a : list A) :
  slice_to k a ++ slice_from k a = a.
Proof.
  unfold slice_to, slice_from.
  destruct (0 <=? k); apply firstn_skipn.
Qed.

Lemma length_arange (n : Z) : List.length (arange n) = Z.to_nat n.
Proof. unfold arange. now rewrite length_map, length_seq. Qed.

Lemma len_arange (n : Z) : 0 <= n -> len (arange n) = n.
Proof. intros. unfold len. rewrite length_arange. lia. Qed.

Lemma In_arange (n i : Z) : In i (arange n) <-> 0 <= i < n.
Proof.
  unfold arange. rewrite in_map_iff. split.
  - intros [k [<- Hk]]. apply in_seq in Hk. lia.
  - intros Hi. exists (Z.to_nat i). split; [lia | apply in_seq; lia].
Qed.

Lemma NoDup_arange (n : Z) : NoDup (arange n).
Proof.
  unfold arange. apply Finite.Injective_map_NoDup.
  - intros a b. apply Nat2Z.inj.
  - apply seq_NoDup.
Qed.

(** What a shuffle of [arange n] keeps: no index twice, every index. *)
Lemma shuffled_NoDup (n : Z) (idx : list Z) :
  Permutation (arange n) idx -> NoDup idx.
Proof. intros H. eapply Permutation_NoDup; [exact H | apply NoDup_arange]. Qed.

Lemma shuffled_In (n : Z) (idx : list Z) (i : Z) :
  Permutation (arange n) idx -> In i idx <-> 0 <= i < n.
Proof.
  intros H. rewrite <- In_arange. split; apply Permutation_in;
    [apply Permutation_sym |]; exact H.
Qed.

Lemma shuffled_len (n : Z) (idx : list Z) :
  0 <= n -> Permutation (arange n) idx -> len idx = n.
Proof.
  intros Hn H. unfold len. rewrite <- (Permutation_length H), length_arange. lia.
Qed.

Lemma NoDup_firstn {A} (k : nat) (a : list A) : NoDup a -> NoDup (firstn k a).
Proof.
  intros H. rewrite <- (firstn_skipn k a) in H.
  now apply NoDup_app_remove_r in H.
Qed.

Lemma In_firstn {A} (k : nat) (a : list A) (x : A) :
  In x (firstn k a) -> In x a.
Proof.
  intros H. rewrite <- (firstn_skipn k a). apply in_or_app. now left.
Qed.

(** Success of [a[i]] inside the bounds. *)
Lemma getitem_in_range {A} (a : list A) (i : Z) :
  0 <= i < len a ->
  exists x, getitem a i = inr x /\ nth_error a (Z.to_nat i) = Some x.
Proof.
  intros Hi. unfold getitem.
  destruct (0 <=? i) eqn:E; [| apply Z.leb_gt in E; lia].
  destruct (i <? 0) eqn:E'; [apply Z.ltb_lt in E'; lia |].
  destruct (nth_error a (Z.to_nat i)) as [x |] eqn:Hx.
  - now exists x.
  - apply nth_error_None in Hx. unfold len in Hi. lia.
Qed.

(** Integer-array indexing succeeds when every index is inside the
    bounds, and returns one element per index. *)
Lemma take_in_range {A} (a : list A) (idx : list Z) :
  (forall i, In i idx -> 0 <= i < len a) ->
  exists xs, take a idx = inr xs /\ List.length xs = List.length idx.
Proof.
  induction idx as [| i idx IH]; intros H.
  - now exists [].
  - destruct (getitem_in_range a i) as [x [Hx _]]; [apply H; now left |].
    destruct IH as [xs [Hxs Hlen]]; [intros j Hj; apply H; now right |].
    exists (x :: xs). simpl. rewrite Hx, Hxs. split; [reflexivity | simpl; lia].
Qed.

Lemma take_length {A} (a : list A) (idx : list Z) (xs : list A) :
  take a idx = inr xs -> List.length xs = List.length idx.
Proof.
  revert xs. induction idx as [| i idx IH]; intros xs H; simpl in H.
  - now inversion H.
  - destruct (getitem a i); [discriminate |].
    destruct (take a idx) as [| ys]; [discriminate |].
    inversion H; subst. simpl. now rewrite (IH ys).
Qed.

(** Integer-array indexing returns elements of the array. *)
Lemma take_In {A} (a : list A) (idx : list Z) (xs : list A) :
  take a idx = inr xs -> Forall (fun x => In x a) xs.
Proof.
  revert xs. induction idx as [| i idx IH]; intros xs H; simpl in H.
  - inversion H. constructor.
  - unfold getitem in H.
    destruct ((if 0 <=? i then i else len a + i) <? 0); [discriminate |].
    destruct (nth_error a _) as [x |] eqn:Hx; [| discriminate].
    destruct (take a idx) as [| ys]; [discriminate |].
    inversion H; subst. constructor.
    + eapply nth_error_In; exact Hx.
    + now apply IH.
Qed.

End PyFacts.

(* ================================================================= *)
(** ** The train/test partition *)

Module Split.

Import Py PyFacts Sklearn Demo Spec.
Local Open Scope Z_scope.

Lemma partitions_shuffled (n : Z) (idx : list Z) :
  Permutation (arange n) idx -> partitions (slice_to (2 * n / 3) idx)
                                           (slice_from (2 * n / 3) idx) n.
Proof.
  intros H. unfold partitions. rewrite slice_to_from. split.
  - eapply shuffled_NoDup; exact H.
  - intros i. now apply shuffled_In.
Qed.

(** The indices of the Wisconsin data set: the first [2n/3] shuffled
    indices train, the others test, and together they are the index set. *)
Lemma wisc_indices_partition (n : Z) (idx : list Z) :
  0 <= n -> Permutation (arange n) idx ->
  fst (wisc_indices idx) = firstn (Z.to_nat (2 * n / 3)) idx /\
  snd (wisc_indices idx) = skipn (Z.to_nat (2 * n / 3)) idx /\
  len (fst (wisc_indices idx)) + len (snd (wisc_indices idx)) = n /\
  partitions (fst (wisc_indices idx)) (snd (wisc_indices idx)) n.
Proof.
  intros Hn H. unfold wisc_indices. cbv beta zeta. unfold fst, snd.
  rewrite (shuffled_len n idx Hn H).
  assert (H23 : 0 <= 2 * n / 3) by (apply Z.div_pos; lia).
  split; [now apply slice_to_firstn |].
  split; [now apply slice_from_skipn |].
  split; [| exact (partitions_shuffled n idx H)].
  rewrite <- len_app, slice_to_from. now apply shuffled_len.
Qed.

(** The indices of MNIST: only the first 5000 shuffled indices are
    kept, the first 3333 of them train and the others test. *)
Lemma mnist_indices_subsample (n : Z) (idx : list Z) :
  0 <= n -> Permutation (arange n) idx ->
  fst (mnist_indices idx) = firstn 3333 idx /\
  snd (mnist_indices idx) = skipn 3333 (firstn 5000 idx) /\
  fst (mnist_indices idx) ++ snd (mnist_indices idx) = firstn 5000 idx /\
  len (fst (mnist_indices idx)) + len (snd (mnist_indices idx)) = Z.min 5000 n /\
  NoDup (fst (mnist_indices idx) ++ snd (mnist_indices idx)) /\
  (forall i, In i (fst (mnist_indices idx) ++ snd (mnist_indices idx)) ->
             0 <= i < n).
Proof.
  intros Hn H. unfold mnist_indices. cbv beta zeta. unfold fst, snd.
  change (2 * 5000 / 3) with 3333.
  rewrite !slice_to_firstn, slice_from_skipn by lia.
  change (Z.to_nat 5000) with 5000%nat. change (Z.to_nat 3333) with 3333%nat.
  assert (E : firstn 3333 (firstn 5000 idx) ++ skipn 3333 (firstn 5000 idx)
              = firstn 5000 idx) by apply firstn_skipn.
  split; [rewrite firstn_firstn; reflexivity |].
  split; [reflexivity |].
  split; [exact E |].
  split; [| split].
  - rewrite <- len_app, E. unfold len. rewrite length_firstn.
    pose proof (shuffled_len n idx Hn H) as L. unfold len in L. lia.
  - rewrite E. apply NoDup_firstn. eapply shuffled_NoDup; exact H.
  - intros i Hi. rewrite E in Hi. apply In_firstn in Hi.
    now apply (shuffled_In n idx i H) in Hi.
Qed.

Section Splits.

Context {F : Type}.

(** Each split reaches [train_models] with one row and one label per
    index. *)
Lemma wisc_split_total (wisc : Bunch F Z) (n : Z) (idx : list Z) :
  0 <= n -> Permutation (arange n) idx ->
  len (data wisc) = n -> len (target wisc) = n ->
  exists X_train y_train X_test y_test,
    wisc_split wisc idx = inr (X_train, y_train, X_test, y_test) /\
    len X_train = len (fst (wisc_indices idx)) /\
    len y_train = len (fst (wisc_indices idx)) /\
    len X_test = len (snd (wisc_indices idx)) /\
    len y_test = len (snd (wisc_indices idx)).
Proof.
  intros Hn H Hd Ht.
  destruct (wisc_indices_partition n idx Hn H) as (_ & _ & _ & _ & Hin).
  unfold wisc_split.
  destruct (wisc_indices idx) as [tr te]. simpl fst in *. simpl snd in *.
  assert (Htr : forall i, In i tr -> 0 <= i < n)
    by (intros i Hi; apply Hin, in_or_app; now left).
  assert (Hte : forall i, In i te -> 0 <= i < n)
    by (intros i Hi; apply Hin, in_or_app; now right).
  destruct (take_in_range (data wisc) tr) as [Xtr [E1 L1]];
    [now rewrite Hd |].
  destruct (take_in_range (data wisc) te) as [Xte [E2 L2]];
    [now rewrite Hd |].
  destruct (take_in_range (target wisc) tr) as [ttr [E3 L3]];
    [now rewrite Ht |].
  destruct (take_in_range (target wisc) te) as [tte [E4 L4]];
    [now rewrite Ht |].
  exists Xtr, (map (fun t => 2 * t - 1) ttr), Xte, (map (fun t => 2 * t - 1) tte).
  rewrite E1, E2, E3, E4. simpl. unfold len. rewrite !length_map.
  repeat split; congruence.
Qed.

Lemma mnist_split_total (mnist : Bunch F string) (n : Z) (idx : list Z) :
  0 <= n -> Permutation (arange n) idx ->
  len (data mnist) = n -> len (target mnist) = n ->
  exists X_train y_train X_test y_test,
    mnist_split mnist idx = inr (X_train, y_train, X_test, y_test) /\
    len X_train = len (fst (mnist_indices idx)) /\
    len y_train = len (fst (mnist_indices idx)) /\
    len X_test = len (snd (mnist_indices idx)) /\
    len y_test = len (snd (mnist_indices idx)).
Proof.
  intros Hn H Hd Ht.
  destruct (mnist_indices_subsample n idx Hn H) as (_ & _ & _ & _ & _ & Hin).
  unfold mnist_split.
  destruct (mnist_indices idx) as [tr te]. simpl fst in *. simpl snd in *.
  assert (Htr : forall i, In i tr -> 0 <= i < n)
    by (intros i Hi; apply Hin, in_or_app; now left).
  assert (Hte : forall i, In i te -> 0 <= i < n)
    by (intros i Hi; apply Hin, in_or_app; now right).
  destruct (take_in_range (data mnist) tr) as [Xtr [E1 L1]];
    [now rewrite Hd |].
  destruct (take_in_range (data mnist) te) as [Xte [E2 L2]];
    [now rewrite Hd |].
  destruct (take_in_range (target mnist) tr) as [ttr [E3 L3]];
    [now rewrite Ht |].
  destruct (take_in_range (target mnist) te) as [tte [E4 L4]];
    [now rewrite Ht |].
  exists Xtr, (map (fun t => spin_of_bool (t <=? "4")%string) ttr),
         Xte, (map (fun t => spin_of_bool (t <=? "4")%string) tte).
  rewrite E1, E2, E3, E4. simpl. unfold len. rewrite !length_map.
  repeat split; congruence.
Qed.

End Splits.

(** C1, as amended.  The shuffled indices [idx] are a permutation of
    [arange n], [n] being the size of the selected data set.  For [wisc]
    the two index lists passed on have [n] elements together, are
    disjoint and jointly exhaustive over [0 .. n-1], and the train list
    is the first [2n // 3] shuffled indices, the test list the others.
    For [mnist] only the first 5000 shuffled indices are kept: the train
    list is the first 3333 of them and the test list the others, they
    have [min 5000 n] elements together, no index occurs twice and each
    is an index of the data set.  In both cases the split succeeds and
    passes one row and one label per index to [train_models]. *)
Theorem partition_of_selected_dataset {F : Type}
    (n : Z) (idx : list Z) (wisc : Bunch F Z) (mnist : Bunch F string) :
  0 <= n ->
  Permutation (arange n) idx ->
  len (data wisc) = n -> len (target wisc) = n ->
  len (data mnist) = n -> len (target mnist) = n ->
  (let tr := fst (wisc_indices idx) in
   let te := snd (wisc_indices idx) in
   tr = firstn (Z.to_nat (2 * n / 3)) idx /\
   te = skipn (Z.to_nat (2 * n / 3)) idx /\
   len tr + len te = n /\
   partitions tr te n /\
   exists X_train y_train X_test y_test,
     wisc_split wisc idx = inr (X_train, y_train, X_test, y_test) /\
     len X_train = len tr /\ len y_train = len tr /\
     len X_test = len te /\ len y_test = len te)
  /\
  (let tr := fst (mnist_indices idx) in
   let te := snd (mnist_indices idx) in
   tr = firstn 3333 idx /\
   te = skipn 3333 (firstn 5000 idx) /\
   tr ++ te = firstn 5000 idx /\
   len tr + len te = Z.min 5000 n /\
   NoDup (tr ++ te) /\
   (forall i, In i (tr ++ te) -> 0 <= i < n) /\
   exists X_train y_train X_test y_test,
     mnist_split mnist idx = inr (X_train, y_train, X_test, y_test) /\
     len X_train = len tr /\ len y_train = len tr /\
     len X_test = len te /\ len y_test = len te).
Proof.
  intros Hn H Hwd Hwt Hmd Hmt. split; cbv zeta.
  - destruct (wisc_indices_partition n idx Hn H) as (E1 & E2 & E3 & E4).
    repeat (split; [assumption |]).
    exact (wisc_split_total wisc n idx Hn H Hwd Hwt).
  - destruct (mnist_indices_subsample n idx Hn H)
      as (E1 & E2 & E3 & E4 & E5 & E6).
    repeat (split; [assumption |]).
    exact (mnist_split_total mnist n idx Hn H Hmd Hmt).
Qed.

(** C1 on three samples, shuffled to [1; 0; 2]. *)
Lemma partition_of_selected_dataset_witness :
  let idx := [1; 0; 2] in
  let wisc := {| data := [[10]; [20]; [30]]; target := [0; 1; 1] |} in
  let mnist := {| data := [[10]; [20]; [30]];
                  target := ["7"; "3"; "4"]%string |} in
  fst (wisc_indices idx) = [1; 0] /\
  wisc_split wisc idx = inr ([[20]; [10]], [1; -1], [[30]], [1]) /\
  mnist_split mnist idx = inr ([[20]; [10]; [30]], [1; -1; 1], [], []).
Proof.
  pose proof (@partition_of_selected_dataset Z 3 [1; 0; 2]
    {| data := [[10]; [20]; [30]]; target := [0; 1; 1] |}
    {| data := [[10]; [20]; [30]]; target := ["7"; "3"; "4"]%string |}
    ltac:(lia) (perm_swap 1 0 [2])
    eq_refl eq_refl eq_refl eq_refl) as [Hw Hm].
  cbv zeta in Hw, Hm.
  destruct Hw as (Hw1 & _). repeat split.
Defined.

(** C1 as stated fails for [mnist]: of the 70000 samples of MNIST, taken
    in the order [arange 70000] (a shuffle may leave it so), only 5000
    reach the two splits. *)
Lemma mnist_partition_drops_samples :
  let n := 70000 in
  let idx := arange n in
  Permutation (arange n) idx /\
  len (fst (mnist_indices idx)) + len (snd (mnist_indices idx)) <> n /\
  ~ partitions (fst (mnist_indices idx)) (snd (mnist_indices idx)) n.
Proof.
  cbv zeta.
  assert (H : Permutation (arange 70000) (arange 70000))
    by apply Permutation_refl.
  destruct (mnist_indices_subsample 70000 (arange 70000) ltac:(lia) H)
    as (_ & _ & E & L & _ & _).
  split; [exact H |]. split.
  - rewrite L. lia.
  - intros [Hnd Hin].
    assert (P : Permutation
                  (fst (mnist_indices (arange 70000)) ++
                   snd (mnist_indices (arange 70000))) (arange 70000)).
    { apply NoDup_Permutation; [exact Hnd | apply NoDup_arange |].
      intros i. rewrite Hin. symmetry. apply In_arange. }
    apply Permutation_length in P.
    rewrite length_arange in P.
    rewrite <- len_app in L. unfold len in L. rewrite P in L.
    lia.
Qed.

End Split.

(* ================================================================= *)
(** ** The labels *)

Module Labels.

Import Py PyFacts Sklearn Demo Spec.
Local Open Scope Z_scope.

Lemma spin_of_bool_is_spin (b : bool) : is_spin (spin_of_bool b).
Proof. destruct b; [left | right]; reflexivity. Qed.

Lemma Forall_spin_of_threshold (ts : list string) :
  Forall is_spin (map (fun t => spin_of_bool (t <=? "4")%string) ts).
Proof.
  apply Forall_forall. intros y Hy. apply in_map_iff in Hy.
  destruct Hy as [t [<- _]]. apply spin_of_bool_is_spin.
Qed.

Lemma Forall_spin_of_binary (ts : list Z) :
  Forall (fun t => t = 0 \/ t = 1) ts ->
  Forall is_spin (map (fun t => 2 * t - 1) ts).
Proof.
  intros H. apply Forall_forall. intros y Hy. apply in_map_iff in Hy.
  destruct Hy as [t [<- Ht]]. rewrite Forall_forall in H.
  destruct (H t Ht) as [-> | ->]; [right | left]; reflexivity.
Qed.

Lemma take_binary (target : list Z) (idx : list Z) (ts : list Z) :
  Forall (fun t => t = 0 \/ t = 1) target ->
  take target idx = inr ts ->
  Forall (fun t => t = 0 \/ t = 1) ts.
Proof.
  intros Hb Ht. apply take_In in Ht. rewrite Forall_forall in *.
  intros t Hin. apply Hb, Ht, Hin.
Qed.

(** C5.  Every label passed to [train_models] is [+1] or [-1]: for
    [wisc], whose targets are 0 or 1, the labels are [2*target - 1] of
    the targets at the train and test indices; for [mnist] they are
    [2*b - 1] of the truth value [b] of [target <= '4'], a comparison of
    strings, at the train and test indices. *)
Theorem labels_are_spins {F : Type}
    (mnist : Bunch F string) (wisc : Bunch F Z) (idx_m idx_w : list Z)
    (Xm Xm' Xw Xw' : matrix F) (ym ym' yw yw' : list Z) :
  Forall (fun t => t = 0 \/ t = 1) (target wisc) ->
  mnist_split mnist idx_m = inr (Xm, ym, Xm', ym') ->
  wisc_split wisc idx_w = inr (Xw, yw, Xw', yw') ->
  (Forall is_spin ym /\ Forall is_spin ym' /\
   exists t t',
     take (target mnist) (fst (mnist_indices idx_m)) = inr t /\
     take (target mnist) (snd (mnist_indices idx_m)) = inr t' /\
     ym = map (fun s => 2 * (if (s <=? "4")%string then 1 else 0) - 1) t /\
     ym' = map (fun s => 2 * (if (s <=? "4")%string then 1 else 0) - 1) t')
  /\
  (Forall is_spin yw /\ Forall is_spin yw' /\
   exists t t',
     take (target wisc) (fst (wisc_indices idx_w)) = inr t /\
     take (target wisc) (snd (wisc_indices idx_w)) = inr t' /\
     yw = map (fun b => 2 * b - 1) t /\
     yw' = map (fun b => 2 * b - 1) t').
Proof.
  intros Hb Hm Hw. split.
  - unfold mnist_split in Hm.
    destruct (mnist_indices idx_m) as [tr te]. cbn [fst snd].
    destruct (take (data mnist) tr); [discriminate |].
    destruct (take (data mnist) te); [discriminate |].
    destruct (take (target mnist) tr) as [| t]; [discriminate |].
    destruct (take (target mnist) te) as [| t']; [discriminate |].
    cbn in Hm. inversion Hm; subst.
    split; [apply Forall_spin_of_threshold |].
    split; [apply Forall_spin_of_threshold |].
    exists t, t'. repeat split.
  - unfold wisc_split in Hw.
    destruct (wisc_indices idx_w) as [tr te]. cbn [fst snd].
    destruct (take (data wisc) tr); [discriminate |].
    destruct (take (data wisc) te); [discriminate |].
    destruct (take (target wisc) tr) as [| t] eqn:Et; [discriminate |].
    destruct (take (target wisc) te) as [| t'] eqn:Et'; [discriminate |].
    cbn in Hw. inversion Hw; subst.
    split; [apply Forall_spin_of_binary; eapply take_binary; eassumption |].
    split; [apply Forall_spin_of_binary; eapply take_binary; eassumption |].
    exists t, t'. repeat split.
Qed.

(** C5 on five samples per data set; the MNIST target ["10"] compares
    below ["4"] as a string. *)
Lemma labels_are_spins_witness :
  Forall is_spin [1; -1; 1] /\ Forall is_spin [1; -1].
Proof.
  pose proof (@labels_are_spins Z
    {| data := [[1]; [2]; [3]; [4]; [5]];
       target := ["0"; "5"; "4"; "9"; "10"]%string |}
    {| data := [[1]; [2]; [3]; [4]; [5]]; target := [0; 1; 1; 0; 1] |}
    [4; 3; 2; 1; 0] [4; 3; 2; 1; 0]
    [[5]; [4]; [3]; [2]; [1]] [] [[5]; [4]; [3]] [[2]; [1]]
    [1; -1; 1; -1; 1] [] [1; -1; 1] [1; -1]
    ltac:(repeat first [apply Forall_nil
                       | apply Forall_cons;
                         [first [left; reflexivity | right; reflexivity] |]])
    eq_refl eq_refl) as [_ [Hw [Hw' _]]].
  split; assumption.
Defined.

End Labels.

(* ================================================================= *)
(** ** The accuracy metric *)

Module Metric.



Import Py PyFacts PyFloat Sklearn Demo Spec.
Local Open Scope Z_scope.



Lemma count_equal_bounds (y y_pred : list Z) :
  0 <= count_equal y y_pred <= len y.
Proof.
  revert y_pred. induction y as [| t y IH]; intros [| p y_pred];
    unfold len in *; simpl count_equal; simpl List.length; try lia.
  specialize (IH y_pred). destruct (t =? p); lia.
Qed.





End Metric.

(* ================================================================= *)
(** ** Facts about formatting and about the floats of the metric *)

Module FormatFacts.

Import Py PyStr PyFloat Sklearn Demo Spec.
Local Open Scope Z_scope.

Lemma length_append (s1 s2 : string) :
  String.length (s1 ++ s2) = (String.length s1 + String.length s2)%nat.
Proof. induction s1 as [| c s1 IH]; simpl; [reflexivity | now rewrite IH]. Qed.

Lemma length_repeat_char (c : Ascii.ascii) (n : nat) :
  String.length (repeat_char c n) = n.
Proof. induction n as [| n IH]; simpl; [reflexivity | now rewrite IH]. Qed.

(** A field is as wide as asked, or as wide as its content if that is
    wider. *)
Lemma length_ljust (width : nat) (s : string) :
  String.length (ljust width s) = Nat.max width (String.length s).
Proof.
  unfold ljust, spaces. rewrite length_append, length_repeat_char. lia.
Qed.

Lemma length_rjust (width : nat) (s : string) :
  String.length (rjust width s) = Nat.max width (String.length s).
Proof.
  unfold rjust, spaces. rewrite length_append, length_repeat_char. lia.
Qed.

Lemma length_digit (d : Z) : String.length (digit d) = 1%nat.
Proof. reflexivity. Qed.

(** Rounding a quotient that lies between 0 and [N] stays there. *)
Lemma round_half_even_bounds (num den N : Z) :
  0 < den -> 0 <= num <= N * den ->
  0 <= round_half_even num den <= N.
Proof.
  intros Hden Hnum. unfold round_half_even.
  pose proof (Z.div_mod num den ltac:(lia)) as Hdm.
  pose proof (Z.mod_pos_bound num den Hden) as Hr.
  assert (Hq : 0 <= num / den) by (apply Z.div_pos; lia).
  assert (Hle : num / den <= N).
  { apply Z.div_le_upper_bound; [exact Hden | lia]. }
  assert (Hlt : num / den = N -> num mod den = 0) by nia.
  destruct (2 * (num mod den) <? den) eqn:E1; [lia |].
  apply Z.ltb_ge in E1.
  assert (num / den < N) by (destruct (Z.eq_dec (num / den) N); lia).
  destruct (den <? 2 * (num mod den)); [lia |].
  destruct (Z.even (num / den)); lia.
Qed.

(** The binary64 quotient of a count by a total that is not smaller is
    an accuracy. *)
Lemma true_divide_unit_interval (c n : Z) :
  0 <= c <= n -> unit_interval (true_divide c n).
Proof.
  intros Hc. unfold true_divide.
  destruct (n =? 0) eqn:En; [exact I |]. apply Z.eqb_neq in En.
  destruct (c =? 0) eqn:Ec; [simpl; lia |]. apply Z.eqb_neq in Ec.
  cbv zeta.
  set (k0 := 52 + Z.log2 n - Z.log2 c).
  assert (Hk0 : 52 <= k0).
  { unfold k0. pose proof (Z.log2_le_mono c n ltac:(lia)). lia. }
  set (k := if c * 2 ^ k0 / n <? 2 ^ 52 then k0 + 1 else k0).
  assert (Hk : 0 <= k) by (unfold k; destruct (_ <? _); lia).
  simpl. split; [exact Hk |].
  apply round_half_even_bounds; [lia |].
  pose proof (Z.pow_pos_nonneg 2 k ltac:(lia) Hk). nia.
Qed.

(** An accuracy is printed on four characters, [nan] on three. *)
Lemma length_format_2f (x : pyfloat) :
  unit_interval x -> (String.length (format_2f x) <= 4)%nat.
Proof.
  destruct x as [m k |]; [| simpl; lia]. intros [Hk Hm]. unfold format_2f.
  cbv zeta. set (cents := round_half_even (100 * m) (2 ^ k)).
  assert (Hc : 0 <= cents <= 100).
  { apply round_half_even_bounds; [apply Z.pow_pos_nonneg; lia | lia]. }
  rewrite !length_append, !length_digit.
  assert (Hd : cents / 100 = 0 \/ cents / 100 = 1).
  { assert (0 <= cents / 100) by (apply Z.div_pos; lia).
    assert (cents / 100 <= 1) by (apply Z.div_le_upper_bound; lia). lia. }
  destruct Hd as [-> | ->]; simpl; lia.
Qed.

Lemma metric_unit_interval (y y_pred : list Z) (a : pyfloat) :
  metric y y_pred = inr a -> unit_interval a.
Proof.
  unfold metric, accuracy_score. destruct (len y =? len y_pred); [| discriminate].
  intros H. inversion H; subst. apply true_divide_unit_interval.
  apply Metric.count_equal_bounds.
Qed.

(** Rounding to the nearest integer misses the quotient by at most one
    half. *)
Lemma round_half_even_close (num den : Z) :
  0 < den -> 2 * Z.abs (num - round_half_even num den * den) <= den.
Proof.
  intros Hden. unfold round_half_even.
  pose proof (Z.div_mod num den ltac:(lia)) as Hdm.
  pose proof (Z.mod_pos_bound num den Hden) as Hr.
  destruct (2 * (num mod den) <? den) eqn:E1.
  { apply Z.ltb_lt in E1. nia. }
  apply Z.ltb_ge in E1.
  destruct (den <? 2 * (num mod den)) eqn:E2.
  { apply Z.ltb_lt in E2. nia. }
  apply Z.ltb_ge in E2.
  destruct (Z.even (num / den)); nia.
Qed.

(** An accuracy is written with two decimal places. *)
Lemma format_2f_two_decimals (m k : Z) :
  0 <= k -> 0 <= m <= 2 ^ k ->
  two_decimals (Dyadic m k) (format_2f (Dyadic m k)).
Proof.
  intros Hk Hm. unfold two_decimals, format_2f. cbv zeta.
  assert (Hp : 0 < 2 ^ k) by (apply Z.pow_pos_nonneg; lia).
  exists (round_half_even (100 * m) (2 ^ k)).
  split; [apply (round_half_even_bounds _ _ 100); lia |].
  split; [apply round_half_even_close; exact Hp | reflexivity].
Qed.

(** The accuracy of a split: [nan] when the split is empty, a value
    between 0 and 1 otherwise. *)
Lemma metric_of_split (y y_pred : list Z) (a : pyfloat) :
  metric y y_pred = inr a ->
  (y = [] -> a = NaN) /\
  (y <> [] -> exists m k, a = Dyadic m k /\ 0 <= k /\ 0 <= m <= 2 ^ k).
Proof.
  intros H. pose proof (metric_unit_interval _ _ _ H) as U.
  unfold metric, accuracy_score in H.
  destruct (len y =? len y_pred); [| discriminate]. injection H as <-.
  split.
  - intros ->. reflexivity.
  - intros Hy. unfold true_divide in *.
    assert (Hn : (len y =? 0) = false).
    { apply Z.eqb_neq. unfold len. destruct y; [congruence | simpl; lia]. }
    rewrite Hn in *.
    destruct (count_equal y y_pred =? 0); eexists; eexists;
      (split; [reflexivity | exact U]).
Qed.

(** The field ['{:<7.2f}'] of an accuracy. *)
Lemma accuracy_field_format (y y_pred : list Z) (a : pyfloat) :
  metric y y_pred = inr a -> accuracy_field y a (ljust 7 (format_2f a)).
Proof.
  intros H. pose proof (metric_unit_interval _ _ _ H) as U.
  destruct (metric_of_split _ _ _ H) as [He Hn].
  split.
  - rewrite length_ljust. pose proof (length_format_2f a U). lia.
  - exists (format_2f a). split; [reflexivity |]. split.
    + intros Hy. destruct (Hn Hy) as (m & k & -> & Hk & Hm).
      now apply format_2f_two_decimals.
    + intros Hy. rewrite (He Hy). now split.
Qed.

(** The model of the float division is the binary64 division, on every
    count out of at most 120 samples and on the sizes of the two data
    sets. *)
Example true_divide_is_binary64 :
  forallb (fun '(c, n) => agrees_with_binary64 c n)
          (quotients_upto 120
           ++ [(2222, 3333); (1667, 3333); (379, 379); (188, 190);
               (46667, 70000); (3, 200); (1, 9007199254740991)]) = true.
Proof. vm_compute. reflexivity. Qed.

(** Two thirds print as 0.67; 1/8 is a tie and goes to the even 0.12;
    3/200 is below 0.015 as a binary64 and prints as 0.01. *)
Example format_2f_examples :
  format_2f (true_divide 2 3) = "0.67"%string /\
  format_2f (true_divide 1 8) = "0.12"%string /\
  format_2f (true_divide 3 200) = "0.01"%string /\
  format_5_2f (true_divide 3 3) = " 1.00"%string /\
  format_l7_2f (true_divide 0 0) = "nan    "%string.
Proof. repeat split. Qed.

(** A row of the table: the three fields have 14, 7 and 7 characters
    when the name fits and the two floats are accuracies. *)
Lemma row_fields (name : string) (a b : pyfloat) :
  (String.length name <= 14)%nat -> unit_interval a -> unit_interval b ->
  String.length (ljust 14 name) = 14%nat /\
  String.length (ljust 7 (format_2f a)) = 7%nat /\
  String.length (ljust 7 (format_2f b)) = 7%nat /\
  String.length (row name a b) = 28%nat.
Proof.
  intros Hn Ha Hb. apply length_format_2f in Ha, Hb.
  unfold row. rewrite !length_append, !length_ljust. lia.
Qed.

End FormatFacts.

(* ================================================================= *)
(** ** The runs of [train_models] *)

Module Report.

Import Py PyStr PyFloat Sklearn Demo Spec FormatFacts.
Local Open Scope string_scope.
Local Open Scope Z_scope.

Ltac reduce_run :=
  cbn -[metric preprocess format_2f format_5_2f str_of_int String.append
        ljust Z.add Z.mul] in *.

(** One step of a run: the next call that may raise either raised or
    returned, a tuple is taken apart, the verbose flag is looked at. *)
Ltac run_step :=
  match goal with
  | H : inl _ = inr _ |- _ => discriminate H
  | H : context [match ?r with inl _ => _ | inr _ => _ end] |- _ =>
      let E := fresh "E" in destruct r eqn:E; reduce_run
  | H : context [let (_, _) := ?p in _] |- _ =>
      is_var p; destruct p; reduce_run
  | H : context [when ?b _] |- _ => destruct b; reduce_run
  end.

(** The same, in a run all of whose calls are known to return. *)
Ltac run_known :=
  match goal with
  | H : ?r = _ |- context [match ?r with inl _ => _ | inr _ => _ end] =>
      rewrite H; reduce_run
  end.

Section Runs.

Context {F : Type} (B : Backend F).

(** A run that ends normally fitted each adapter once, on the
    preprocessed training matrix, and printed the summary, the four
    headline sections and the table, the accuracies of a section and of
    its row being the same two values. *)
Lemma train_models_normal_end
    (X_train : matrix F) (y_train : list Z) (X_test : matrix F)
    (y_test : list Z) (lmd : pyfloat) (verbose : bool) :
  snd (train_models B X_train y_train X_test y_test lmd verbose) = inr tt ->
  exists sp np X1 X2 m1 m2 m3 m4 a1 b1 a2 b2 a3 b3 a4 b4,
    preprocess (StandardScaler B) (Normalizer B) X_train X_test
      = inr (sp, np, X1, X2) /\
    metric y_train (est_predict (AdaBoostClassifier B 35) m1 X1) = inr a1 /\
    metric y_test (est_predict (AdaBoostClassifier B 35) m1 X2) = inr b1 /\
    metric y_train (est_predict (WeakClassifiers B 35 3) m2 X1) = inr a2 /\
    metric y_test (est_predict (WeakClassifiers B 35 3) m2 X2) = inr b2 /\
    metric y_train (est_predict (QBoostClassifier B 35 3) m3 X1) = inr a3 /\
    metric y_test (est_predict (QBoostClassifier B 35 3) m3 X2) = inr b3 /\
    metric y_train (est_predict (QboostPlus B (m1, m2, m3)) m4 X1) = inr a4 /\
    metric y_test (est_predict (QboostPlus B (m1, m2, m3)) m4 X2) = inr b4 /\
    calls (fst (train_models B X_train y_train X_test y_test lmd verbose)) =
      ["DWaveSampler"; "EmbeddingComposite"; "AdaBoostClassifier.fit";
       "WeakClassifiers.fit"; "QBoostClassifier.fit"; "QboostPlus.fit"] /\
    stdout (fst (train_models B X_train y_train X_test y_test lmd verbose)) =
     (summary (len X_train) (len X_test)
      ++ headline "Adaboost:" [] a1 b1
      ++ headline "Decision tree:"
           (weights_line verbose "weights:"
              (estimator_weights (WeakClassifiers B 35 3) m2)) a2 b2
      ++ headline "QBoost:"
           (weights_line verbose "weights"
              (estimator_weights (QBoostClassifier B 35 3) m3)) a3 b3
      ++ headline "QBoostPlus:"
           (weights_line verbose "weights"
              (estimator_weights (QboostPlus B (m1, m2, m3)) m4)) a4 b4
      ++ table [("Adaboost", a1, b1); ("DecisionTree", a2, b2);
                ("Qboost", a3, b3); ("QboostIt", a4, b4)])%list.
Proof.
  intros H. unfold train_models, print_table in *. reduce_run.
  repeat run_step;
    do 16 eexists; (split; [reflexivity |]);
    repeat (split; [eassumption |]); split; reflexivity.
Qed.

(** C10.  In a run that ends normally each adapter has one fitted model
    and one pair of accuracies: the accuracy [metric] gives for its
    predictions on the preprocessed training matrix and the one for its
    predictions on the preprocessed test matrix.  The headline section
    of the adapter and its row of the table print these same two
    values, to two decimals; each [fit] was called once. *)
Theorem headline_and_table_agree
    (X_train : matrix F) (y_train : list Z) (X_test : matrix F)
    (y_test : list Z) (lmd : pyfloat) (verbose : bool) :
  snd (train_models B X_train y_train X_test y_test lmd verbose) = inr tt ->
  exists X1 X2 m1 m2 m3 m4 a1 b1 a2 b2 a3 b3 a4 b4 w2 w3 w4,
    metric y_train (est_predict (AdaBoostClassifier B 35) m1 X1) = inr a1 /\
    metric y_test (est_predict (AdaBoostClassifier B 35) m1 X2) = inr b1 /\
    metric y_train (est_predict (WeakClassifiers B 35 3) m2 X1) = inr a2 /\
    metric y_test (est_predict (WeakClassifiers B 35 3) m2 X2) = inr b2 /\
    metric y_train (est_predict (QBoostClassifier B 35 3) m3 X1) = inr a3 /\
    metric y_test (est_predict (QBoostClassifier B 35 3) m3 X2) = inr b3 /\
    metric y_train (est_predict (QboostPlus B (m1, m2, m3)) m4 X1) = inr a4 /\
    metric y_test (est_predict (QboostPlus B (m1, m2, m3)) m4 X2) = inr b4 /\
    calls (fst (train_models B X_train y_train X_test y_test lmd verbose)) =
      ["DWaveSampler"; "EmbeddingComposite"; "AdaBoostClassifier.fit";
       "WeakClassifiers.fit"; "QBoostClassifier.fit"; "QboostPlus.fit"] /\
    stdout (fst (train_models B X_train y_train X_test y_test lmd verbose)) =
     (summary (len X_train) (len X_test)
      ++ headline "Adaboost:" [] a1 b1
      ++ headline "Decision tree:" w2 a2 b2
      ++ headline "QBoost:" w3 a3 b3
      ++ headline "QBoostPlus:" w4 a4 b4
      ++ [ ""; rule "="%char; "Method        Train  Test   "; rule "-"%char;
           row "Adaboost" a1 b1; row "DecisionTree" a2 b2;
           row "Qboost" a3 b3; row "QboostIt" a4 b4; rule "="%char ])%list.
Proof.
  intros H.
  destruct (train_models_normal_end _ _ _ _ _ _ H)
    as (sp & np & X1 & X2 & m1 & m2 & m3 & m4 & a1 & b1 & a2 & b2 & a3 & b3
        & a4 & b4 & _ & H1 & H2 & H3 & H4 & H5 & H6 & H7 & H8 & Hc & Ho).
  exists X1, X2, m1, m2, m3, m4, a1, b1, a2, b2, a3, b3, a4, b4.
  do 3 eexists. repeat (split; [eassumption |]). exact Ho.
Qed.


Lemma metric_raises (y y_pred : list Z) (e : exn) :
  metric y y_pred = inl e -> e = Exception "ValueError".
Proof.
  unfold metric, accuracy_score. destruct (len y =? len y_pred);
    [discriminate | now intros [= <-]].
Qed.




Lemma bind_print {A : Type} (text : string) (k : unit -> M A) :
  bind (print text) k = (Stdout text :: fst (k tt), snd (k tt)).
Proof. unfold bind, print. now destruct (k tt). Qed.

Lemma bind_call_inr {A A' : Type} (callee : string) (a : A) (k : A -> M A') :
  bind (call callee (inr a)) k = (Call callee :: fst (k a), snd (k a)).
Proof. unfold bind, call. now destruct (k a). Qed.

(** The summary is printed whatever the sizes are, as soon as the
    sampler is there. *)
Lemma summary_is_printed
    (X_train : matrix F) (y_train : list Z) (X_test : matrix F)
    (y_test : list Z) (lmd : pyfloat) (verbose : bool)
    (dw : dwave B) (emb : embedding B) :
  DWaveSampler B = inr dw -> EmbeddingComposite B dw = inr emb ->
  exists rest,
    stdout (fst (train_models B X_train y_train X_test y_test lmd verbose))
    = (summary (len X_train) (len X_test) ++ rest)%list.
Proof.
  intros H1 H2. unfold train_models.
  rewrite H1, bind_call_inr, H2, bind_call_inr, !bind_print.
  cbn [fst stdout]. eexists. reflexivity.
Qed.

(** What a run that ends normally did, with every call it made. *)
Lemma normal_end_calls
    (X_train : matrix F) (y_train : list Z) (X_test : matrix F)
    (y_test : list Z) (lmd : pyfloat) (verbose : bool) :
  snd (train_models B X_train y_train X_test y_test lmd verbose) = inr tt ->
  exists dw emb sp np X1 X2 m1 m2 m3 m4 a1 b1 a2 b2 a3 b3 a4 b4,
    DWaveSampler B = inr dw /\
    EmbeddingComposite B dw = inr emb /\
    preprocess (StandardScaler B) (Normalizer B) X_train X_test
      = inr (sp, np, X1, X2) /\
    est_fit (AdaBoostClassifier B 35) tt X1 y_train = inr m1 /\
    est_fit (WeakClassifiers B 35 3) tt X1 y_train = inr m2 /\
    est_fit (QBoostClassifier B 35 3) (emb, lmd, dw_params) X1 y_train
      = inr m3 /\
    est_fit (QboostPlus B (m1, m2, m3)) (emb, lmd, dw_params) X1 y_train
      = inr m4 /\
    metric y_train (est_predict (AdaBoostClassifier B 35) m1 X1) = inr a1 /\
    metric y_test (est_predict (AdaBoostClassifier B 35) m1 X2) = inr b1 /\
    metric y_train (est_predict (WeakClassifiers B 35 3) m2 X1) = inr a2 /\
    metric y_test (est_predict (WeakClassifiers B 35 3) m2 X2) = inr b2 /\
    metric y_train (est_predict (QBoostClassifier B 35 3) m3 X1) = inr a3 /\
    metric y_test (est_predict (QBoostClassifier B 35 3) m3 X2) = inr b3 /\
    metric y_train (est_predict (QboostPlus B (m1, m2, m3)) m4 X1) = inr a4 /\
    metric y_test (est_predict (QboostPlus B (m1, m2, m3)) m4 X2) = inr b4 /\
    stdout (fst (train_models B X_train y_train X_test y_test lmd verbose)) =
     ((summary (len X_train) (len X_test)
       ++ headline "Adaboost:" [] a1 b1
       ++ headline "Decision tree:"
            (weights_line verbose "weights:"
               (estimator_weights (WeakClassifiers B 35 3) m2)) a2 b2
       ++ headline "QBoost:"
            (weights_line verbose "weights"
               (estimator_weights (QBoostClassifier B 35 3) m3)) a3 b3
       ++ headline "QBoostPlus:"
            (weights_line verbose "weights"
               (estimator_weights (QboostPlus B (m1, m2, m3)) m4)) a4 b4)
      ++ [ ""; rule "="%char; "Method        Train  Test   "; rule "-"%char;
           row "Adaboost" a1 b1; row "DecisionTree" a2 b2;
           row "Qboost" a3 b3; row "QboostIt" a4 b4; rule "="%char ])%list.
Proof.
  intros H. unfold train_models, print_table in *. reduce_run.
  repeat run_step;
    do 18 eexists;
    do 15 (split; [first [reflexivity | eassumption] |]);
    reflexivity.
Qed.

(** A row of the table, field by field. *)
Lemma row_layout (y_train y_test y_train_pred y_test_pred : list Z)
    (name : string) (a b : pyfloat) :
  (String.length name <= 14)%nat ->
  metric y_train y_train_pred = inr a -> metric y_test y_test_pred = inr b ->
  exists name_field train_field test_field,
    row name a b = name_field ++ train_field ++ test_field /\
    name_field = name ++ spaces (14 - String.length name) /\
    String.length name_field = 14%nat /\
    accuracy_field y_train a train_field /\
    accuracy_field y_test b test_field.
Proof.
  intros Hn Ha Hb.
  exists (ljust 14 name), (ljust 7 (format_2f a)), (ljust 7 (format_2f b)).
  split; [reflexivity |]. split; [reflexivity |].
  split; [rewrite length_ljust; lia |].
  split; eapply accuracy_field_format; eassumption.
Qed.

(** C8, as amended.  A run that ends normally closes its report with
    the table: an empty line, a rule of 28 ['='], the header, a rule of
    28 ['-'], one row per adapter in the order Adaboost, DecisionTree,
    Qboost, QboostIt, and a rule of 28 ['='].  The row of an adapter is
    its name aligned to the left of a field of 14 characters (the
    padding follows the name), then its train accuracy and its test
    accuracy, each aligned to the left of a field of 7 characters.  The
    two accuracies are the values of [metric] for the predictions of
    that adapter, fitted on the preprocessed training matrix, on the
    preprocessed training and test matrix; each is written with two
    decimal places, the nearest hundredth, and reads [nan] when its
    split is empty. *)
Theorem comparison_table_layout
    (X_train : matrix F) (y_train : list Z) (X_test : matrix F)
    (y_test : list Z) (lmd : pyfloat) (verbose : bool) :
  snd (train_models B X_train y_train X_test y_test lmd verbose) = inr tt ->
  exists dw emb sp np X1 X2 m1 m2 m3 m4 a1 b1 a2 b2 a3 b3 a4 b4 before,
    DWaveSampler B = inr dw /\
    EmbeddingComposite B dw = inr emb /\
    preprocess (StandardScaler B) (Normalizer B) X_train X_test
      = inr (sp, np, X1, X2) /\
    est_fit (AdaBoostClassifier B 35) tt X1 y_train = inr m1 /\
    est_fit (WeakClassifiers B 35 3) tt X1 y_train = inr m2 /\
    est_fit (QBoostClassifier B 35 3) (emb, lmd, dw_params) X1 y_train
      = inr m3 /\
    est_fit (QboostPlus B (m1, m2, m3)) (emb, lmd, dw_params) X1 y_train
      = inr m4 /\
    metric y_train (est_predict (AdaBoostClassifier B 35) m1 X1) = inr a1 /\
    metric y_test (est_predict (AdaBoostClassifier B 35) m1 X2) = inr b1 /\
    metric y_train (est_predict (WeakClassifiers B 35 3) m2 X1) = inr a2 /\
    metric y_test (est_predict (WeakClassifiers B 35 3) m2 X2) = inr b2 /\
    metric y_train (est_predict (QBoostClassifier B 35 3) m3 X1) = inr a3 /\
    metric y_test (est_predict (QBoostClassifier B 35 3) m3 X2) = inr b3 /\
    metric y_train (est_predict (QboostPlus B (m1, m2, m3)) m4 X1) = inr a4 /\
    metric y_test (est_predict (QboostPlus B (m1, m2, m3)) m4 X2) = inr b4 /\
    stdout (fst (train_models B X_train y_train X_test y_test lmd verbose)) =
      (before ++
       [ ""; rule "="%char; "Method        Train  Test   "; rule "-"%char;
         row "Adaboost" a1 b1; row "DecisionTree" a2 b2;
         row "Qboost" a3 b3; row "QboostIt" a4 b4; rule "="%char ])%list /\
    String.length (rule "="%char) = 28%nat /\
    String.length (rule "-"%char) = 28%nat /\
    Forall (fun '(name, a, b) =>
              exists name_field train_field test_field,
                row name a b = name_field ++ train_field ++ test_field /\
                name_field = name ++ spaces (14 - String.length name) /\
                String.length name_field = 14%nat /\
                accuracy_field y_train a train_field /\
                accuracy_field y_test b test_field)
           [("Adaboost", a1, b1); ("DecisionTree", a2, b2);
            ("Qboost", a3, b3); ("QboostIt", a4, b4)].
Proof.
  intros H.
  destruct (normal_end_calls _ _ _ _ _ _ H)
    as (dw & emb & sp & np & X1 & X2 & m1 & m2 & m3 & m4
        & a1 & b1 & a2 & b2 & a3 & b3 & a4 & b4
        & Hdw & Hemb & Hpre & F1 & F2 & F3 & F4
        & H1 & H2 & H3 & H4 & H5 & H6 & H7 & H8 & Ho).
  exists dw, emb, sp, np, X1, X2, m1, m2, m3, m4.
  exists a1, b1, a2, b2, a3, b3, a4, b4.
  eexists.
  do 15 (split; [eassumption |]).
  split; [exact Ho |].
  split; [reflexivity |]. split; [reflexivity |].
  repeat first [apply Forall_nil | apply Forall_cons];
    (eapply row_layout; [simpl; lia | eassumption | eassumption]).
Qed.

(** C2, as amended.  When the sampler, the preprocessing and the first
    two adapters work and the [fit] of the QBoost classifier raises [e],
    [train_models] raises [e]: the report stops after the headline
    sections of Adaboost and of the decision trees and the title of
    QBoost, the classifier QboostPlus is not fitted and no table is
    printed. *)
Theorem qboost_failure_aborts_run
    (X_train : matrix F) (y_train : list Z) (X_test : matrix F)
    (y_test : list Z) (lmd : pyfloat) (verbose : bool)
    (dw : dwave B) (emb : embedding B)
    (sp : option (scaler_params B)) (np : option (normalizer_params B))
    (X1 X2 : matrix F) (m1 : ada_model B) (m2 : wc_model B)
    (a1 b1 a2 b2 : pyfloat) (e : exn) :
  DWaveSampler B = inr dw ->
  EmbeddingComposite B dw = inr emb ->
  preprocess (StandardScaler B) (Normalizer B) X_train X_test
    = inr (sp, np, X1, X2) ->
  est_fit (AdaBoostClassifier B 35) tt X1 y_train = inr m1 ->
  metric y_train (est_predict (AdaBoostClassifier B 35) m1 X1) = inr a1 ->
  metric y_test (est_predict (AdaBoostClassifier B 35) m1 X2) = inr b1 ->
  est_fit (WeakClassifiers B 35 3) tt X1 y_train = inr m2 ->
  metric y_train (est_predict (WeakClassifiers B 35 3) m2 X1) = inr a2 ->
  metric y_test (est_predict (WeakClassifiers B 35 3) m2 X2) = inr b2 ->
  est_fit (QBoostClassifier B 35 3)
    (emb, lmd, {| num_reads := 3000; auto_scale := true;
                  num_spin_reversal_transforms := 10 |}) X1 y_train
    = inl e ->
  snd (train_models B X_train y_train X_test y_test lmd verbose) = inl e /\
  calls (fst (train_models B X_train y_train X_test y_test lmd verbose)) =
    ["DWaveSampler"; "EmbeddingComposite"; "AdaBoostClassifier.fit";
     "WeakClassifiers.fit"; "QBoostClassifier.fit"] /\
  stdout (fst (train_models B X_train y_train X_test y_test lmd verbose)) =
    (summary (len X_train) (len X_test)
     ++ headline "Adaboost:" [] a1 b1
     ++ headline "Decision tree:"
          (weights_line verbose "weights:"
             (estimator_weights (WeakClassifiers B 35 3) m2)) a2 b2
     ++ [(nl ++ "QBoost:")%string])%list.
Proof.
  intros H1 H2 H3 H4 H5 H6 H7 H8 H9 H10.
  unfold train_models, print_table. reduce_run.
  rewrite H1. reduce_run. rewrite H2. reduce_run. rewrite H3. reduce_run.
  rewrite H4. reduce_run. rewrite H5. reduce_run. rewrite H6. reduce_run.
  rewrite H7. reduce_run. destruct verbose; reduce_run;
    rewrite H8; reduce_run; rewrite H9; reduce_run; rewrite H10; reduce_run;
    repeat split.
Qed.



End Runs.

(** C10 on the stub run: the first headline section and the first row
    of the table carry the same two accuracies. *)
Lemma headline_and_table_agree_witness :
  exists a1 b1 between rest,
    stdout (fst (Stub.run (inr tt))) =
      (summary 3 2 ++ headline "Adaboost:" [] a1 b1 ++ between
       ++ [row "Adaboost" a1 b1] ++ rest)%list.
Proof.
  destruct (headline_and_table_agree (Stub.backend (inr tt))
              Stub.X_train Stub.y_train Stub.X_test Stub.y_test
              (Dyadic 1 0) false eq_refl)
    as (X1 & X2 & m1 & m2 & m3 & m4 & a1 & b1 & a2 & b2 & a3 & b3 & a4 & b4
        & w2 & w3 & w4 & _ & _ & _ & _ & _ & _ & _ & _ & _ & Ho).
  exists a1, b1,
    (headline "Decision tree:" w2 a2 b2 ++ headline "QBoost:" w3 a3 b3
     ++ headline "QBoostPlus:" w4 a4 b4
     ++ [ ""; rule "="%char; "Method        Train  Test   ";
          rule "-"%char ])%list,
    [ row "DecisionTree" a2 b2; row "Qboost" a3 b3; row "QboostIt" a4 b4;
      rule "="%char ].
  unfold Stub.run. rewrite Ho, <- !app_assoc. reflexivity.
Defined.

(** C8 on the stub run: the table closes the report, and the row of
    Adaboost carries the accuracies 2/3 and 2/2 of its predictions. *)
Lemma comparison_table_layout_witness :
  exists before a1 b1 a2 b2 a3 b3 a4 b4,
    metric Stub.y_train (map Stub.sign_of_first Stub.X_train) = inr a1 /\
    metric Stub.y_test (map Stub.sign_of_first Stub.X_test) = inr b1 /\
    stdout (fst (Stub.run (inr tt))) =
      (before ++
       [ ""; rule "="%char; "Method        Train  Test   "; rule "-"%char;
         row "Adaboost" a1 b1; row "DecisionTree" a2 b2;
         row "Qboost" a3 b3; row "QboostIt" a4 b4; rule "="%char ])%list.
Proof.
  destruct (comparison_table_layout (Stub.backend (inr tt))
              Stub.X_train Stub.y_train Stub.X_test Stub.y_test
              (Dyadic 1 0) false eq_refl)
    as (dw & emb & sp & np & X1 & X2 & m1 & m2 & m3 & m4
        & a1 & b1 & a2 & b2 & a3 & b3 & a4 & b4 & before
        & _ & _ & Hpre & _ & _ & _ & _ & H1 & H2 & _ & _ & _ & _ & _ & _
        & Ho & _).
  injection Hpre as _ _ <- <-.
  exists before, a1, b1, a2, b2, a3, b3, a4, b4.
  split; [exact H1 |]. split; [exact H2 | exact Ho].
Defined.

(** C8 as stated fails: the name is not left-padded.  In the stub run
    the row of Adaboost starts with the name, the padding follows it,
    and no line of the report starts with the name padded on its left. *)
Lemma method_names_are_not_left_padded :
  snd (Stub.run (inr tt)) = inr tt /\
  nth_error (stdout (fst (Stub.run (inr tt)))) 20
    = Some "Adaboost      0.67   1.00   " /\
  left_padded 14 "Adaboost" = "      Adaboost" /\
  Forall (fun line => String.prefix (left_padded 14 "Adaboost") line = false)
         (stdout (fst (Stub.run (inr tt)))).
Proof.
  split; [reflexivity |]. split; [reflexivity |]. split; [reflexivity |].
  vm_compute. repeat constructor.
Qed.

(** C2 on the stub run whose sampler cannot be reached. *)
Lemma qboost_failure_aborts_run_witness :
  snd (Stub.run Stub.unavailable)
    = inl (Exception "SamplerUnavailableError").
Proof.
  refine (proj1 (qboost_failure_aborts_run (Stub.backend Stub.unavailable)
            Stub.X_train Stub.y_train Stub.X_test Stub.y_test
            (Dyadic 1 0) false tt tt (Some tt) (Some tt)
            Stub.X_train Stub.X_test tt tt _ _ _ _ _
            eq_refl eq_refl eq_refl eq_refl eq_refl eq_refl eq_refl eq_refl
            eq_refl eq_refl)).
Defined.

(** C2 as stated fails: when the [fit] of the QBoost classifier raises
    [SamplerUnavailableError] the run is aborted with that error, exit
    status 1, and its report has neither the table nor a row for any
    adapter. *)
Lemma sampler_failure_leaves_no_table :
  snd (Stub.run Stub.unavailable)
    = inl (Exception "SamplerUnavailableError") /\
  exit_status (Stub.run Stub.unavailable) = 1 /\
  stdout (fst (Stub.run Stub.unavailable)) =
    [ "Size of training set: 3"; "Size of test set:     2";
      "Number of weak classifiers: 35"; "Tree depth: 3";
      nl ++ "Adaboost:";
      "Accuracy on training set:  0.67"; "Accuracy on test set:      1.00";
      nl ++ "Decision tree:";
      "Accuracy on training set:  0.33"; "Accuracy on test set:      0.50";
      nl ++ "QBoost:" ] /\
  ~ In (rule "="%char) (stdout (fst (Stub.run Stub.unavailable))) /\
  ~ In "QboostPlus.fit" (calls (fst (Stub.run Stub.unavailable))).
Proof.
  split; [reflexivity |]. split; [reflexivity |]. split; [reflexivity |].
  split; vm_compute; intuition discriminate.
Qed.




End Report.

(* ================================================================= *)
(** ** The preprocessing of the two matrices *)

Module Refit.

Import Py PyStr PyFloat Sklearn Demo Spec.
Local Open Scope Z_scope.

Section Transformers.

Context {F SP NP : Type}.
Context (S : Transformer F SP) (N : Transformer F NP).

Lemma fit_transform_inv {P : Type} (T : Transformer F P)
    (self self' : option P) (X X' : matrix F) :
  fit_transform self X = inr (self', X') ->
  exists p, fit X = inr p /\ self' = Some p /\ X' = transform p X.
Proof.
  unfold fit_transform. destruct (fit X) as [| p]; [discriminate |].
  intros [= <- <-]. now exists p.
Qed.

(** What a successful preprocessing did: four fits, each on the matrix
    it then transformed. *)
Lemma preprocess_inv (X_train X_test : matrix F)
    (sp : option SP) (np : option NP) (X1 X2 : matrix F) :
  preprocess S N X_train X_test = inr (sp, np, X1, X2) ->
  exists (p1 : SP) (q1 : NP) (p2 : SP) (q2 : NP),
    fit (Transformer := S) X_train = inr p1 /\
    fit (Transformer := N) (transform p1 X_train) = inr q1 /\
    X1 = transform q1 (transform p1 X_train) /\
    fit (Transformer := S) X_test = inr p2 /\
    fit (Transformer := N) (transform p2 X_test) = inr q2 /\
    X2 = transform q2 (transform p2 X_test) /\
    sp = Some p2 /\ np = Some q2.
Proof.
  unfold preprocess. intros H.
  destruct (fit_transform None X_train) as [| [s1 Y1]] eqn:E1;
    [discriminate |].
  destruct (fit_transform None Y1) as [| [n1 Y1']] eqn:E2; [discriminate |].
  destruct (fit_transform s1 X_test) as [| [s2 Y2]] eqn:E3; [discriminate |].
  destruct (fit_transform n1 Y2) as [| [n2 Y2']] eqn:E4; [discriminate |].
  injection H as <- <- <- <-.
  apply fit_transform_inv in E1, E2, E3, E4.
  destruct E1 as (p1 & F1 & _ & ->). destruct E2 as (q1 & F2 & _ & ->).
  destruct E3 as (p2 & F3 & -> & ->). destruct E4 as (q2 & F4 & -> & ->).
  exists p1, q1, p2, q2. repeat split; assumption.
Qed.

(** C3.  When the preprocessing succeeds, the test matrix was
    transformed with parameters fitted on the test matrix itself: the
    scaler was refitted on [X_test] and the normalizer on the scaled
    [X_test], and these are the parameters the two objects end with;
    the training matrix went through its own pair of fits; and the
    transformed test matrix does not depend on the training matrix. *)
Theorem test_matrix_is_refitted (X_train X_test : matrix F)
    (sp : option SP) (np : option NP) (X1 X2 : matrix F) :
  preprocess S N X_train X_test = inr (sp, np, X1, X2) ->
  (exists (p : SP) (q : NP),
     fit (Transformer := S) X_test = inr p /\
     fit (Transformer := N) (transform p X_test) = inr q /\
     X2 = transform q (transform p X_test) /\
     sp = Some p /\ np = Some q) /\
  (exists (p : SP) (q : NP),
     fit (Transformer := S) X_train = inr p /\
     fit (Transformer := N) (transform p X_train) = inr q /\
     X1 = transform q (transform p X_train)) /\
  (forall X_train' sp' np' X1' X2',
     preprocess S N X_train' X_test = inr (sp', np', X1', X2') ->
     X2' = X2 /\ sp' = sp /\ np' = np).
Proof.
  intros H.
  destruct (preprocess_inv _ _ _ _ _ _ H)
    as (p1 & q1 & p2 & q2 & F1 & F2 & -> & F3 & F4 & -> & -> & ->).
  split; [exists p2, q2; repeat split; assumption |].
  split; [exists p1, q1; repeat split; assumption |].
  intros X_train' sp' np' X1' X2' H'.
  destruct (preprocess_inv _ _ _ _ _ _ H')
    as (p1' & q1' & p2' & q2' & _ & _ & _ & F3' & F4' & -> & -> & ->).
  rewrite F3 in F3'. injection F3' as <-.
  rewrite F4 in F4'. injection F4' as <-.
  repeat split.
Qed.

End Transformers.

(** C3 with a scaler that subtracts the first entry of the matrix it was
    fitted on: the test matrix is shifted by its own first entry, 3, not
    by the 10 of the training matrix. *)
Lemma test_matrix_is_refitted_witness :
  exists (p : Z) (q : unit),
    fit (Transformer := Stub.shift) [[3]; [5]] = inr p /\
    fit (Transformer := Stub.keep)
        (transform (Transformer := Stub.shift) p [[3]; [5]]) = inr q /\
    [[0]; [2]] = transform (Transformer := Stub.keep) q
                   (transform (Transformer := Stub.shift) p [[3]; [5]]) /\
    Some 3 = Some p /\ Some tt = Some q.
Proof.
  exact (proj1 (test_matrix_is_refitted Stub.shift Stub.keep
                  [[10]; [12]] [[3]; [5]] (Some 3) (Some tt)
                  [[0]; [2]] [[0]; [2]] eq_refl)).
Defined.

End Refit.

(* ================================================================= *)
(** ** The command line *)

Module Cli.

Import Py PyStr PyFloat Sklearn Demo Spec.
Local Open Scope string_scope.
Local Open Scope Z_scope.

Section Selected.

Context {F : Type} (B : Backend F).
Context (prog : string) (repr : string -> string).
Context (fetch_openml : result (Bunch F string)).
Context (load_breast_cancer : result (Bunch F Z)).
Context (shuffle : list Z -> list Z).

(** With ['wisc'] the program loads the data set, splits it at the
    shuffled indices and passes the split to [train_models]. *)
Lemma main_wisc (wisc : Bunch F Z)
    (X_train X_test : matrix F) (y_train y_test : list Z) :
  load_breast_cancer = inr wisc ->
  wisc_split wisc (shuffle (arange (len (target wisc))))
    = inr (X_train, y_train, X_test, y_test) ->
  main B prog repr fetch_openml load_breast_cancer shuffle "wisc" =
    (Stdout "Wisconsin breast cancer data set:" :: Call "load_breast_cancer"
       :: fst (train_models B X_train y_train X_test y_test (Dyadic 1 0) false),
     snd (train_models B X_train y_train X_test y_test (Dyadic 1 0) false)).
Proof.
  intros Hl Hs. unfold main, parse_args.
  cbn -[wisc_split mnist_split arange len train_models]. rewrite Hl.
  cbn -[wisc_split mnist_split arange len train_models]. rewrite Hs.
  cbn -[train_models].
  now destruct (train_models B X_train y_train X_test y_test (Dyadic 1 0) false).
Qed.

(** With ['mnist'] likewise. *)
Lemma main_mnist (mnist : Bunch F string)
    (X_train X_test : matrix F) (y_train y_test : list Z) :
  fetch_openml = inr mnist ->
  mnist_split mnist (shuffle (arange (len (data mnist))))
    = inr (X_train, y_train, X_test, y_test) ->
  main B prog repr fetch_openml load_breast_cancer shuffle "mnist" =
    (Stdout "MNIST handwritten digits data set:" :: Call "fetch_openml"
       :: fst (train_models B X_train y_train X_test y_test (Dyadic 1 0) false),
     snd (train_models B X_train y_train X_test y_test (Dyadic 1 0) false)).
Proof.
  intros Hl Hs. unfold main, parse_args.
  cbn -[wisc_split mnist_split arange len train_models]. rewrite Hl.
  cbn -[wisc_split mnist_split arange len train_models]. rewrite Hs.
  cbn -[train_models].
  now destruct (train_models B X_train y_train X_test y_test (Dyadic 1 0) false).
Qed.

End Selected.



End Cli.

(* ================================================================= *)
(** ** More about the runs of [train_models] *)

Module RunFacts.

Import Py PyStr PyFloat Sklearn Demo Spec FormatFacts Report.
Local Open Scope string_scope.
Local Open Scope Z_scope.

Section Runs.

Context {F : Type} (B : Backend F).

(** Whatever happens, the collaborators are called in the order of the
    source, each at most once, and the run stops at the first that
    raises. *)
Lemma calls_prefix
    (X_train : matrix F) (y_train : list Z) (X_test : matrix F)
    (y_test : list Z) (lmd : pyfloat) (verbose : bool) :
  exists k,
    calls (fst (train_models B X_train y_train X_test y_test lmd verbose))
    = firstn k call_sequence.
Proof.
  remember (train_models B X_train y_train X_test y_test lmd verbose)
    as run eqn:R.
  unfold train_models, print_table in R. reduce_run.
  repeat run_step; subst run; cbn [fst calls];
    first [ now exists 1%nat | now exists 2%nat | now exists 3%nat
          | now exists 4%nat | now exists 5%nat | now exists 6%nat ].
Qed.

(** X2.  In every run, however it ends, the collaborators are called in
    the order of the source and each at most once: the calls are an
    initial part of the sequence sampler, embedding, fit of Adaboost,
    of the decision trees, of QBoost, of QboostPlus; a run that ends
    normally made all six calls. *)
Theorem collaborators_called_in_source_order
    (X_train : matrix F) (y_train : list Z) (X_test : matrix F)
    (y_test : list Z) (lmd : pyfloat) (verbose : bool) :
  (exists k,
     calls (fst (train_models B X_train y_train X_test y_test lmd verbose))
     = firstn k call_sequence) /\
  (snd (train_models B X_train y_train X_test y_test lmd verbose) = inr tt ->
   calls (fst (train_models B X_train y_train X_test y_test lmd verbose))
   = call_sequence).
Proof.
  split; [apply calls_prefix |]. intros H.
  destruct (train_models_normal_end B _ _ _ _ _ _ H)
    as (sp & np & X1 & X2 & m1 & m2 & m3 & m4 & a1 & b1 & a2 & b2 & a3 & b3
        & a4 & b4 & _ & _ & _ & _ & _ & _ & _ & _ & _ & Hc & _).
  exact Hc.
Qed.

(** X1.  The sampler is built before anything else: when
    [DWaveSampler()] or [EmbeddingComposite()] raises, the run stops
    with that exception, having printed nothing and fitted nothing;
    so a run that printed a line had both. *)
Theorem nothing_happens_without_sampler
    (X_train : matrix F) (y_train : list Z) (X_test : matrix F)
    (y_test : list Z) (lmd : pyfloat) (verbose : bool) :
  (forall e, DWaveSampler B = inl e ->
     train_models B X_train y_train X_test y_test lmd verbose
     = ([Call "DWaveSampler"], inl e)) /\
  (forall dw e, DWaveSampler B = inr dw -> EmbeddingComposite B dw = inl e ->
     train_models B X_train y_train X_test y_test lmd verbose
     = ([Call "DWaveSampler"; Call "EmbeddingComposite"], inl e)) /\
  (stdout (fst (train_models B X_train y_train X_test y_test lmd verbose))
     <> [] ->
   exists dw emb,
     DWaveSampler B = inr dw /\ EmbeddingComposite B dw = inr emb).
Proof.
  split; [| split].
  - intros e H. unfold train_models. now rewrite H.
  - intros dw e H1 H2. unfold train_models. rewrite H1. reduce_run.
    now rewrite H2.
  - unfold train_models. intros H.
    destruct (DWaveSampler B) as [e | dw] eqn:E1;
      [exfalso; apply H; reflexivity |].
    reduce_run.
    destruct (EmbeddingComposite B dw) as [e | emb] eqn:E2;
      [exfalso; apply H; reflexivity |].
    now exists dw, emb.
Qed.

(** X3.  The rule of 28 ['='] of the table is printed exactly by the
    runs that end normally: a run that is aborted, wherever, prints no
    table. *)
Theorem table_printed_iff_normal_end
    (X_train : matrix F) (y_train : list Z) (X_test : matrix F)
    (y_test : list Z) (lmd : pyfloat) (verbose : bool) :
  snd (train_models B X_train y_train X_test y_test lmd verbose) = inr tt
  <-> In (rule "="%char)
         (stdout (fst (train_models B X_train y_train X_test y_test lmd verbose))).
Proof.
  remember (train_models B X_train y_train X_test y_test lmd verbose)
    as run eqn:R.
  unfold train_models, print_table in R. reduce_run.
  repeat run_step; subst run; cbn [fst snd stdout]; split; intros H;
    try discriminate H; try reflexivity;
    try (exfalso; simpl in H; intuition discriminate);
    simpl; intuition.
Qed.

(** X4.  The verbose mode changes neither the outcome of a run nor
    the calls it makes: its output is the output of the quiet run with
    additional lines that start with [weights], and the quiet run has
    no such line. *)
Theorem verbose_only_adds_weights_lines
    (X_train : matrix F) (y_train : list Z) (X_test : matrix F)
    (y_test : list Z) (lmd : pyfloat) :
  snd (train_models B X_train y_train X_test y_test lmd true)
    = snd (train_models B X_train y_train X_test y_test lmd false) /\
  calls (fst (train_models B X_train y_train X_test y_test lmd true))
    = calls (fst (train_models B X_train y_train X_test y_test lmd false)) /\
  filter (fun line => negb (is_weights_line line))
    (stdout (fst (train_models B X_train y_train X_test y_test lmd true)))
    = stdout (fst (train_models B X_train y_train X_test y_test lmd false)) /\
  filter is_weights_line
    (stdout (fst (train_models B X_train y_train X_test y_test lmd false)))
    = [].
Proof.
  remember (train_models B X_train y_train X_test y_test lmd true)
    as loud eqn:R1.
  remember (train_models B X_train y_train X_test y_test lmd false)
    as quiet eqn:R2.
  unfold train_models, print_table in R1, R2. reduce_run.
  repeat run_step; subst loud quiet; cbn [fst snd stdout calls];
    repeat split.
Qed.

(** X5.  In a run that ends normally the four adapters were fitted on
    the preprocessed training matrix and the training labels, with 35
    estimators and depth 3; the two sampler-based ones received the
    embedded sampler, [lmd] and the parameters [num_reads = 3000],
    [auto_scale = True], [num_spin_reversal_transforms = 10], and
    QboostPlus was built over the three models fitted before it. *)
Theorem adapters_fitted_on_preprocessed_training_data
    (X_train : matrix F) (y_train : list Z) (X_test : matrix F)
    (y_test : list Z) (lmd : pyfloat) (verbose : bool) :
  snd (train_models B X_train y_train X_test y_test lmd verbose) = inr tt ->
  exists dw emb sp np X1 X2 m1 m2 m3 m4,
    DWaveSampler B = inr dw /\
    EmbeddingComposite B dw = inr emb /\
    preprocess (StandardScaler B) (Normalizer B) X_train X_test
      = inr (sp, np, X1, X2) /\
    est_fit (AdaBoostClassifier B 35) tt X1 y_train = inr m1 /\
    est_fit (WeakClassifiers B 35 3) tt X1 y_train = inr m2 /\
    est_fit (QBoostClassifier B 35 3) (emb, lmd, dw_params) X1 y_train
      = inr m3 /\
    est_fit (QboostPlus B (m1, m2, m3)) (emb, lmd, dw_params) X1 y_train
      = inr m4.
Proof.
  intros H. unfold train_models, print_table in H. reduce_run.
  repeat run_step;
    do 10 eexists; (split; [reflexivity |]); (split; [eassumption |]);
    (split; [reflexivity |]); repeat (split; [eassumption |]); eassumption.
Qed.

Lemma metric_outcome_by_length (y y' y_pred : list Z) (e : exn) (a : pyfloat) :
  len y = len y' -> metric y y_pred = inl e -> metric y' y_pred = inr a ->
  False.
Proof.
  unfold metric, accuracy_score. intros ->.
  destruct (len y' =? len y_pred); discriminate.
Qed.

Lemma metric_error_by_length (y y' y_pred : list Z) (e e' : exn) :
  metric y y_pred = inl e -> metric y' y_pred = inl e' -> e = e'.
Proof.
  intros H H'. apply metric_raises in H, H'. congruence.
Qed.

(** X6.  The test labels only enter the accuracies: replacing them by
    another vector of the same length changes neither the outcome of
    the run, nor the calls of the collaborators, nor the number of
    lines printed. *)
Theorem test_labels_never_reach_the_fits
    (X_train : matrix F) (y_train : list Z) (X_test : matrix F)
    (y_test y_test' : list Z) (lmd : pyfloat) (verbose : bool) :
  len y_test = len y_test' ->
  snd (train_models B X_train y_train X_test y_test lmd verbose)
    = snd (train_models B X_train y_train X_test y_test' lmd verbose) /\
  calls (fst (train_models B X_train y_train X_test y_test lmd verbose))
    = calls (fst (train_models B X_train y_train X_test y_test' lmd verbose)) /\
  List.length
    (stdout (fst (train_models B X_train y_train X_test y_test lmd verbose)))
    = List.length
        (stdout (fst (train_models B X_train y_train X_test y_test' lmd verbose))).
Proof.
  intros Hlen.
  remember (train_models B X_train y_train X_test y_test lmd verbose)
    as run eqn:R1.
  remember (train_models B X_train y_train X_test y_test' lmd verbose)
    as run' eqn:R2.
  unfold train_models, print_table in R1, R2. reduce_run.
  repeat run_step; subst run run'; cbn [fst snd stdout calls List.length];
    try (exfalso;
         match goal with
         | E : metric y_test ?p = inl _, E' : metric y_test' ?p = inr _ |- _ =>
             exact (metric_outcome_by_length _ _ _ _ _ Hlen E E')
         | E : metric y_test' ?p = inl _, E' : metric y_test ?p = inr _ |- _ =>
             exact (metric_outcome_by_length _ _ _ _ _ (eq_sym Hlen) E E')
         end);
    repeat split;
    match goal with
    | E : metric y_test ?p = inl _, E' : metric y_test' ?p = inl _ |- _ =>
        now rewrite (metric_error_by_length _ _ _ _ _ E E')
    | _ => idtac
    end.
Qed.

End Runs.

(** X5 on the stub run. *)
Lemma adapters_fitted_on_preprocessed_training_data_witness :
  exists (dw emb : unit) (sp np : option unit) (X1 X2 : matrix Z)
         (m1 m2 m3 m4 : unit),
    DWaveSampler (Stub.backend (inr tt)) = inr dw /\
    EmbeddingComposite (Stub.backend (inr tt)) dw = inr emb /\
    preprocess (StandardScaler (Stub.backend (inr tt)))
               (Normalizer (Stub.backend (inr tt))) Stub.X_train Stub.X_test
      = inr (sp, np, X1, X2) /\
    est_fit (AdaBoostClassifier (Stub.backend (inr tt)) 35) tt X1 Stub.y_train
      = inr m1 /\
    est_fit (WeakClassifiers (Stub.backend (inr tt)) 35 3) tt X1 Stub.y_train
      = inr m2 /\
    est_fit (QBoostClassifier (Stub.backend (inr tt)) 35 3)
      (emb, Dyadic 1 0, dw_params) X1 Stub.y_train = inr m3 /\
    est_fit (QboostPlus (Stub.backend (inr tt)) (m1, m2, m3))
      (emb, Dyadic 1 0, dw_params) X1 Stub.y_train = inr m4.
Proof.
  exact (adapters_fitted_on_preprocessed_training_data
           (Stub.backend (inr tt)) Stub.X_train Stub.y_train Stub.X_test
           Stub.y_test (Dyadic 1 0) false eq_refl).
Defined.

(** X6 on the stub run, with another vector of two test labels. *)
Lemma test_labels_never_reach_the_fits_witness :
  snd (train_models (Stub.backend (inr tt)) Stub.X_train Stub.y_train
         Stub.X_test [-1; 1] (Dyadic 1 0) false)
  = snd (train_models (Stub.backend (inr tt)) Stub.X_train Stub.y_train
           Stub.X_test [1; 1] (Dyadic 1 0) false).
Proof.
  exact (proj1 (test_labels_never_reach_the_fits (Stub.backend (inr tt))
                  Stub.X_train Stub.y_train Stub.X_test [-1; 1] [1; 1]
                  (Dyadic 1 0) false eq_refl)).
Defined.

End RunFacts.

(* ================================================================= *)
(** ** More about the two splits *)

Module SplitFacts.

Import Py PyFacts Sklearn Demo Spec Split.
Local Open Scope Z_scope.

Lemma In_slice_to {A} (k : Z) (a : list A) (x : A) :
  In x (slice_to k a) -> In x a.
Proof.
  intros H. rewrite <- (slice_to_from k a). apply in_or_app. now left.
Qed.

Lemma In_slice_from {A} (k : Z) (a : list A) (x : A) :
  In x (slice_from k a) -> In x a.
Proof.
  intros H. rewrite <- (slice_to_from k a). apply in_or_app. now right.
Qed.

Lemma In_wisc_indices (idx : list Z) (i : Z) :
  In i (fst (wisc_indices idx)) \/ In i (snd (wisc_indices idx)) -> In i idx.
Proof.
  unfold wisc_indices. cbn [fst snd].
  intros [H | H]; [eapply In_slice_to | eapply In_slice_from]; exact H.
Qed.

Lemma In_mnist_indices (idx : list Z) (i : Z) :
  In i (fst (mnist_indices idx)) \/ In i (snd (mnist_indices idx)) -> In i idx.
Proof.
  unfold mnist_indices. cbn [fst snd].
  intros [H | H];
    [apply In_slice_to in H | apply In_slice_from in H];
    eapply In_slice_to; exact H.
Qed.

(** [a[idx]] pairs each index with the element at that position. *)
Lemma take_Forall2 {A} (a : list A) (idx : list Z) (xs : list A) :
  take a idx = inr xs ->
  (forall i, In i idx -> 0 <= i) ->
  Forall2 (fun i x => nth_error a (Z.to_nat i) = Some x) idx xs.
Proof.
  revert xs. induction idx as [| i idx IH]; intros xs H Hpos; simpl in H.
  - injection H as <-. constructor.
  - unfold getitem in H.
    assert (Hi : 0 <= i) by (apply Hpos; now left).
    destruct (0 <=? i) eqn:E; [| apply Z.leb_gt in E; lia].
    destruct (i <? 0); [discriminate |].
    destruct (nth_error a (Z.to_nat i)) as [x |] eqn:Hx; [| discriminate].
    destruct (take a idx) as [| ys]; [discriminate |].
    injection H as <-. constructor; [exact Hx |].
    apply IH; [reflexivity | intros j Hj; apply Hpos; now right].
Qed.

Lemma Forall2_nth_error {A A'} (P : A -> A' -> Prop) (l : list A)
    (l' : list A') (k : nat) (x : A) :
  Forall2 P l l' -> nth_error l k = Some x ->
  exists x', nth_error l' k = Some x' /\ P x x'.
Proof.
  intros H. revert k. induction H as [| y y' l l' Hy _ IH]; intros [| k] Hk;
    simpl in Hk; try discriminate.
  - injection Hk as <-. now exists y'.
  - now apply IH.
Qed.

(** The only error of [a[idx]] is [IndexError]. *)
Lemma take_raises {A} (a : list A) (idx : list Z) (e : exn) :
  take a idx = inl e -> e = Exception "IndexError".
Proof.
  induction idx as [| i idx IH]; simpl; [discriminate |].
  unfold getitem.
  destruct ((if 0 <=? i then i else len a + i) <? 0);
    [now intros [= <-] |].
  destruct (nth_error a _); [| now intros [= <-]].
  destruct (take a idx); [intros [= <-]; now apply IH | discriminate].
Qed.

(** An index past the end makes [a[idx]] fail. *)
Lemma take_out_of_range {A} (a : list A) (idx : list Z) (i : Z) :
  In i idx -> len a <= i -> take a idx = inl (Exception "IndexError").
Proof.
  intros Hin Hi.
  destruct (take a idx) as [e | xs] eqn:E;
    [now rewrite (take_raises a idx e E) |].
  exfalso. revert xs E. induction idx as [| j idx IH]; intros xs E;
    [destruct Hin |].
  simpl in E. destruct (getitem a j) as [| x] eqn:G; [discriminate |].
  destruct (take a idx) as [| ys] eqn:T; [discriminate |].
  destruct Hin as [-> | Hin]; [| now apply (IH Hin ys)].
  unfold getitem in G. pose proof (len_nonneg a).
  destruct (0 <=? i) eqn:E0; [| apply Z.leb_gt in E0; lia].
  destruct (i <? 0); [discriminate |].
  destruct (nth_error a (Z.to_nat i)) eqn:N; [| discriminate].
  assert (nth_error a (Z.to_nat i) = None)
    by (apply nth_error_None; unfold len in Hi; lia).
  congruence.
Qed.

Lemma wisc_indices_len (n : Z) (idx : list Z) :
  0 <= n -> Permutation (arange n) idx ->
  len (fst (wisc_indices idx)) = 2 * n / 3 /\
  len (snd (wisc_indices idx)) = n - 2 * n / 3.
Proof.
  intros Hn H.
  destruct (wisc_indices_partition n idx Hn H) as (E1 & _ & E3 & _).
  pose proof (shuffled_len n idx Hn H) as L.
  assert (L1 : len (fst (wisc_indices idx)) = 2 * n / 3).
  { rewrite E1. unfold len in *. rewrite length_firstn.
    assert (0 <= 2 * n / 3 <= n) by (split; [apply Z.div_pos; lia |];
      apply Z.div_le_upper_bound; lia). lia. }
  split; [exact L1 | lia].
Qed.

(** X7.  For [wisc] with [n] samples the training split has
    [2n // 3] samples and the test split the other [n - 2n // 3]; the
    test split is never empty when there is a sample, and the training
    split is empty exactly when [n <= 1]. *)
Theorem wisc_split_sizes (n : Z) (idx : list Z) :
  0 <= n -> Permutation (arange n) idx ->
  len (fst (wisc_indices idx)) = 2 * n / 3 /\
  len (snd (wisc_indices idx)) = n - 2 * n / 3 /\
  (1 <= n -> 1 <= len (snd (wisc_indices idx))) /\
  (fst (wisc_indices idx) = [] <-> n <= 1).
Proof.
  intros Hn H. destruct (wisc_indices_len n idx Hn H) as [L1 L2].
  split; [exact L1 |]. split; [exact L2 |].
  split; [intros H1; assert (2 * n / 3 < n)
            by (apply Z.div_lt_upper_bound; lia); lia |].
  split.
  - intros E. rewrite E in L1. unfold len in L1.
    cbn [List.length Z.of_nat] in L1.
    destruct (Z_le_gt_dec n 1) as [| G]; [assumption |].
    assert (1 <= 2 * n / 3) by (apply Z.div_le_lower_bound; lia). lia.
  - intros H1. assert (E0 : 2 * n / 3 = 0)
      by (apply Z.div_small; lia).
    rewrite E0 in L1. unfold len in L1.
    destruct (fst (wisc_indices idx)); [reflexivity | simpl in L1; lia].
Qed.

(** X7 on three shuffled samples: two train, one tests. *)
Lemma wisc_split_sizes_witness :
  len (fst (wisc_indices [1; 0; 2])) = 2 /\
  len (snd (wisc_indices [1; 0; 2])) = 1.
Proof.
  destruct (wisc_split_sizes 3 [1; 0; 2] ltac:(lia) (perm_swap 1 0 [2]))
    as (H1 & H2 & _).
  split; [exact H1 | exact H2].
Defined.

Lemma mnist_indices_len (n : Z) (idx : list Z) :
  0 <= n -> Permutation (arange n) idx ->
  len (fst (mnist_indices idx)) = Z.min 3333 n /\
  len (snd (mnist_indices idx)) = Z.min 5000 n - Z.min 3333 n.
Proof.
  intros Hn H.
  destruct (mnist_indices_subsample n idx Hn H) as (E1 & _ & _ & E4 & _).
  pose proof (shuffled_len n idx Hn H) as L.
  assert (L1 : len (fst (mnist_indices idx)) = Z.min 3333 n).
  { rewrite E1. unfold len in *. rewrite length_firstn. lia. }
  split; [exact L1 | lia].
Qed.

(** X8.  For [mnist] with [n] samples the training split has
    [min(3333, n)] samples and the test split
    [min(5000, n) - min(3333, n)]: 3333 and 1667 as soon as
    [n >= 5000], and with [n <= 3333] every sample trains and the test
    split is empty. *)
Theorem mnist_split_sizes (n : Z) (idx : list Z) :
  0 <= n -> Permutation (arange n) idx ->
  len (fst (mnist_indices idx)) = Z.min 3333 n /\
  len (snd (mnist_indices idx)) = Z.min 5000 n - Z.min 3333 n /\
  (5000 <= n -> len (fst (mnist_indices idx)) = 3333 /\
                len (snd (mnist_indices idx)) = 1667) /\
  (n <= 3333 -> fst (mnist_indices idx) = idx /\ snd (mnist_indices idx) = []).
Proof.
  intros Hn H. destruct (mnist_indices_len n idx Hn H) as [L1 L2].
  destruct (mnist_indices_subsample n idx Hn H) as (E1 & _).
  pose proof (shuffled_len n idx Hn H) as L.
  split; [exact L1 |]. split; [exact L2 |]. split; [lia |].
  intros Hs. split.
  - rewrite E1. apply firstn_all2. unfold len in L. lia.
  - assert (L0 : len (snd (mnist_indices idx)) = 0) by lia.
    unfold len in L0. destruct (snd (mnist_indices idx));
      [reflexivity | simpl in L0; lia].
Qed.

(** X8 on three shuffled samples: all of them train, none tests. *)
Lemma mnist_split_sizes_witness :
  fst (mnist_indices [1; 0; 2]) = [1; 0; 2] /\
  snd (mnist_indices [1; 0; 2]) = [].
Proof.
  destruct (mnist_split_sizes 3 [1; 0; 2] ltac:(lia) (perm_swap 1 0 [2]))
    as (_ & _ & _ & H).
  apply H. lia.
Defined.

Section Splits.

Context {F : Type}.

(** X9.  The split of [wisc] keeps each row with its own label: at
    every position of the training split, and of the test split, the
    row is the row of the data set at the index drawn for that
    position and the label is [2*target - 1] of the target at that
    same index. *)
Theorem wisc_split_keeps_rows_and_labels_together
    (wisc : Bunch F Z) (idx : list Z)
    (X_train X_test : matrix F) (y_train y_test : list Z) :
  (forall i, In i idx -> 0 <= i) ->
  wisc_split wisc idx = inr (X_train, y_train, X_test, y_test) ->
  (forall k i, nth_error (fst (wisc_indices idx)) k = Some i ->
     exists row t,
       nth_error (data wisc) (Z.to_nat i) = Some row /\
       nth_error (target wisc) (Z.to_nat i) = Some t /\
       nth_error X_train k = Some row /\
       nth_error y_train k = Some (2 * t - 1)) /\
  (forall k i, nth_error (snd (wisc_indices idx)) k = Some i ->
     exists row t,
       nth_error (data wisc) (Z.to_nat i) = Some row /\
       nth_error (target wisc) (Z.to_nat i) = Some t /\
       nth_error X_test k = Some row /\
       nth_error y_test k = Some (2 * t - 1)).
Proof.
  intros Hpos H. unfold wisc_split in H.
  pose proof (In_wisc_indices idx) as Hin.
  destruct (wisc_indices idx) as [tr te]. cbn [fst snd] in *.
  destruct (take (data wisc) tr) as [| Xtr] eqn:E1; [discriminate |].
  destruct (take (data wisc) te) as [| Xte] eqn:E2; [discriminate |].
  destruct (take (target wisc) tr) as [| ttr] eqn:E3; [discriminate |].
  destruct (take (target wisc) te) as [| tte] eqn:E4; [discriminate |].
  cbn in H. injection H as <- <- <- <-.
  assert (Ptr : forall i, In i tr -> 0 <= i) by (intros; apply Hpos, Hin; auto).
  assert (Pte : forall i, In i te -> 0 <= i) by (intros; apply Hpos, Hin; auto).
  apply take_Forall2 in E1, E2, E3, E4; try assumption.
  split; intros k i Hk.
  - destruct (Forall2_nth_error _ _ _ k i E1 Hk) as (row & Hr & Hd).
    destruct (Forall2_nth_error _ _ _ k i E3 Hk) as (t & Ht & Hg).
    exists row, t. repeat split; try assumption.
    rewrite nth_error_map, Ht. reflexivity.
  - destruct (Forall2_nth_error _ _ _ k i E2 Hk) as (row & Hr & Hd).
    destruct (Forall2_nth_error _ _ _ k i E4 Hk) as (t & Ht & Hg).
    exists row, t. repeat split; try assumption.
    rewrite nth_error_map, Ht. reflexivity.
Qed.

(** X10.  The split of [mnist] keeps each row with its own label: at
    every position of either split the row is the row of the data set
    at the index drawn for that position, and the label is [+1] when
    the target at that same index is at most ['4'] as a string and
    [-1] otherwise. *)
Theorem mnist_split_keeps_rows_and_labels_together
    (mnist : Bunch F string) (idx : list Z)
    (X_train X_test : matrix F) (y_train y_test : list Z) :
  (forall i, In i idx -> 0 <= i) ->
  mnist_split mnist idx = inr (X_train, y_train, X_test, y_test) ->
  (forall k i, nth_error (fst (mnist_indices idx)) k = Some i ->
     exists row t,
       nth_error (data mnist) (Z.to_nat i) = Some row /\
       nth_error (target mnist) (Z.to_nat i) = Some t /\
       nth_error X_train k = Some row /\
       nth_error y_train k
         = Some (if (t <=? "4")%string then 1 else -1)) /\
  (forall k i, nth_error (snd (mnist_indices idx)) k = Some i ->
     exists row t,
       nth_error (data mnist) (Z.to_nat i) = Some row /\
       nth_error (target mnist) (Z.to_nat i) = Some t /\
       nth_error X_test k = Some row /\
       nth_error y_test k
         = Some (if (t <=? "4")%string then 1 else -1)).
Proof.
  intros Hpos H. unfold mnist_split in H.
  pose proof (In_mnist_indices idx) as Hin.
  destruct (mnist_indices idx) as [tr te]. cbn [fst snd] in *.
  destruct (take (data mnist) tr) as [| Xtr] eqn:E1; [discriminate |].
  destruct (take (data mnist) te) as [| Xte] eqn:E2; [discriminate |].
  destruct (take (target mnist) tr) as [| ttr] eqn:E3; [discriminate |].
  destruct (take (target mnist) te) as [| tte] eqn:E4; [discriminate |].
  cbn in H. injection H as <- <- <- <-.
  assert (Ptr : forall i, In i tr -> 0 <= i) by (intros; apply Hpos, Hin; auto).
  assert (Pte : forall i, In i te -> 0 <= i) by (intros; apply Hpos, Hin; auto).
  apply take_Forall2 in E1, E2, E3, E4; try assumption.
  split; intros k i Hk.
  - destruct (Forall2_nth_error _ _ _ k i E1 Hk) as (row & Hr & Hd).
    destruct (Forall2_nth_error _ _ _ k i E3 Hk) as (t & Ht & Hg).
    exists row, t. repeat split; try assumption.
    rewrite nth_error_map, Ht. unfold spin_of_bool. cbn [option_map].
    now destruct (t <=? "4")%string.
  - destruct (Forall2_nth_error _ _ _ k i E2 Hk) as (row & Hr & Hd).
    destruct (Forall2_nth_error _ _ _ k i E4 Hk) as (t & Ht & Hg).
    exists row, t. repeat split; try assumption.
    rewrite nth_error_map, Ht. unfold spin_of_bool. cbn [option_map].
    now destruct (t <=? "4")%string.
Qed.

(** X11.  The indices of [wisc] are drawn from the length of the
    target vector but index the data matrix too: when the data matrix
    has fewer rows than there are targets, the split raises
    [IndexError], whatever the shuffle. *)
Theorem wisc_split_fails_on_missing_rows
    (wisc : Bunch F Z) (n : Z) (idx : list Z) :
  Permutation (arange n) idx ->
  len (target wisc) = n -> len (data wisc) < n ->
  wisc_split wisc idx = inl (Exception "IndexError").
Proof.
  intros H Ht Hd.
  assert (Hn : 0 <= n) by (rewrite <- Ht; apply len_nonneg).
  destruct (wisc_indices_partition n idx Hn H) as (_ & _ & _ & _ & Hin).
  pose proof (len_nonneg (data wisc)) as Hd0.
  assert (Hi : In (len (data wisc))
                  (fst (wisc_indices idx) ++ snd (wisc_indices idx)))
    by (apply Hin; lia).
  unfold wisc_split. destruct (wisc_indices idx) as [tr te].
  cbn [fst snd] in Hi. apply in_app_or in Hi.
  destruct (take (data wisc) tr) as [e | Xtr] eqn:E1; simpl.
  { now rewrite (take_raises _ _ _ E1). }
  destruct Hi as [Hi | Hi].
  { rewrite (take_out_of_range (data wisc) tr _ Hi (Z.le_refl _)) in E1.
    discriminate. }
  now rewrite (take_out_of_range (data wisc) te _ Hi (Z.le_refl _)).
Qed.

End Splits.

(** X9 on three samples: the second training row is row 0 with the
    label of target 0. *)
Lemma wisc_split_keeps_rows_and_labels_together_witness :
  exists row t,
    nth_error [[10]; [20]; [30]] (Z.to_nat 0) = Some row /\
    nth_error [0; 1; 1] (Z.to_nat 0) = Some t /\
    nth_error [[20]; [10]] 1 = Some row /\
    nth_error [1; -1] 1 = Some (2 * t - 1).
Proof.
  refine (proj1 (wisc_split_keeps_rows_and_labels_together
            {| data := [[10]; [20]; [30]]; target := [0; 1; 1] |}
            [1; 0; 2] [[20]; [10]] [[30]] [1; -1] [1] _ eq_refl) 1%nat 0 eq_refl).
  intros i [<- | [<- | [<- | []]]]; lia.
Defined.

(** X10 on three samples: the first training row is row 1, whose
    target ["7"] is above ["4"]. *)
Lemma mnist_split_keeps_rows_and_labels_together_witness :
  exists row t,
    nth_error [[10]; [20]; [30]] (Z.to_nat 1) = Some row /\
    nth_error ["3"; "7"; "4"]%string (Z.to_nat 1) = Some t /\
    nth_error [[20]; [10]; [30]] 0 = Some row /\
    nth_error [-1; 1; 1] 0 = Some (if (t <=? "4")%string then 1 else -1).
Proof.
  refine (proj1 (mnist_split_keeps_rows_and_labels_together
            {| data := [[10]; [20]; [30]];
               target := ["3"; "7"; "4"]%string |}
            [1; 0; 2] [[20]; [10]; [30]] [] [-1; 1; 1] [] _ eq_refl)
            0%nat 1 eq_refl).
  intros i [<- | [<- | [<- | []]]]; lia.
Defined.

(** X11 with three targets and two rows. *)
Lemma wisc_split_fails_on_missing_rows_witness :
  wisc_split {| data := [[10]; [20]]; target := [0; 1; 1] |} [1; 0; 2]
  = inl (Exception "IndexError").
Proof.
  apply (wisc_split_fails_on_missing_rows
           {| data := [[10]; [20]]; target := [0; 1; 1] |} 3 [1; 0; 2]
           (perm_swap 1 0 [2]) eq_refl).
  reflexivity.
Defined.

End SplitFacts.

(* ================================================================= *)
(** ** More about the main program, the labels and the metric *)

Module MainFacts.

Import Py PyFacts PyStr PyFloat Sklearn Demo Spec Split SplitFacts Report
       RunFacts Cli.
Local Open Scope string_scope.
Local Open Scope Z_scope.

Section Selected.

Context {F : Type} (B : Backend F).
Context (prog : string) (repr : string -> string).
Context (fetch_openml : result (Bunch F string)).
Context (load_breast_cancer : result (Bunch F Z)).
Context (shuffle : list Z -> list Z).

Lemma In_firstn_call_sequence (k : nat) (callee : string) :
  In callee (firstn k call_sequence) -> In callee call_sequence.
Proof. apply In_firstn. Qed.

(** X12.  The main program loads the selected data set and no other:
    with ['mnist'] its calls are [fetch_openml] followed by an initial
    part of the calls of [train_models], with ['wisc'] they are
    [load_breast_cancer] followed by such a part; [fetch_openml] is
    never called for another token than ['mnist'], nor
    [load_breast_cancer] for another than ['wisc']. *)
Theorem main_loads_only_the_selected_dataset (dataset : string) :
  (dataset = "mnist" ->
   exists k,
     calls (fst (main B prog repr fetch_openml load_breast_cancer shuffle
                   dataset))
     = "fetch_openml" :: firstn k call_sequence) /\
  (dataset = "wisc" ->
   exists k,
     calls (fst (main B prog repr fetch_openml load_breast_cancer shuffle
                   dataset))
     = "load_breast_cancer" :: firstn k call_sequence) /\
  (dataset <> "mnist" ->
   ~ In "fetch_openml"
        (calls (fst (main B prog repr fetch_openml load_breast_cancer shuffle
                       dataset)))) /\
  (dataset <> "wisc" ->
   ~ In "load_breast_cancer"
        (calls (fst (main B prog repr fetch_openml load_breast_cancer shuffle
                       dataset)))).
Proof.
  assert (Hm : exists k,
            calls (fst (main B prog repr fetch_openml load_breast_cancer
                          shuffle "mnist"))
            = "fetch_openml" :: firstn k call_sequence).
  { unfold main, parse_args.
    cbn -[mnist_split arange len train_models call_sequence].
    destruct fetch_openml as [e | mnist];
      cbn -[mnist_split arange len train_models call_sequence];
      [now exists 0%nat |].
    destruct (mnist_split mnist _) as [e | [[[Xtr ytr] Xte] yte]];
      cbn -[train_models call_sequence]; [now exists 0%nat |].
    destruct (calls_prefix B Xtr ytr Xte yte (Dyadic 1 0) false) as [k Hk].
    exists k. destruct (train_models B Xtr ytr Xte yte (Dyadic 1 0) false).
    cbn [fst calls] in *. now rewrite Hk. }
  assert (Hw : exists k,
            calls (fst (main B prog repr fetch_openml load_breast_cancer
                          shuffle "wisc"))
            = "load_breast_cancer" :: firstn k call_sequence).
  { unfold main, parse_args.
    cbn -[wisc_split arange len train_models call_sequence].
    destruct load_breast_cancer as [e | wisc];
      cbn -[wisc_split arange len train_models call_sequence];
      [now exists 0%nat |].
    destruct (wisc_split wisc _) as [e | [[[Xtr ytr] Xte] yte]];
      cbn -[train_models call_sequence]; [now exists 0%nat |].
    destruct (calls_prefix B Xtr ytr Xte yte (Dyadic 1 0) false) as [k Hk].
    exists k. destruct (train_models B Xtr ytr Xte yte (Dyadic 1 0) false).
    cbn [fst calls] in *. now rewrite Hk. }
  assert (Hu : dataset <> "mnist" -> dataset <> "wisc" ->
               calls (fst (main B prog repr fetch_openml load_breast_cancer
                             shuffle dataset)) = []).
  { intros H1 H2. unfold main, parse_args, choices. cbn [existsb].
    apply String.eqb_neq in H1, H2. now rewrite H1, H2. }
  split; [now intros -> |]. split; [now intros -> |]. split.
  - intros H1 Hin. destruct (string_dec dataset "wisc") as [-> | H2].
    + destruct Hw as [k Hk]. rewrite Hk in Hin.
      destruct Hin as [Hin | Hin]; [discriminate |].
      apply In_firstn_call_sequence in Hin. simpl in Hin.
      intuition discriminate.
    + now rewrite (Hu H1 H2) in Hin.
  - intros H2 Hin. destruct (string_dec dataset "mnist") as [-> | H1].
    + destruct Hm as [k Hk]. rewrite Hk in Hin.
      destruct Hin as [Hin | Hin]; [discriminate |].
      apply In_firstn_call_sequence in Hin. simpl in Hin.
      intuition discriminate.
    + now rewrite (Hu H1 H2) in Hin.
Qed.

(** X13.  With ['wisc'], a data set of [n] rows and [n] targets and a
    sampler that can be built, the report opens with the title of the
    data set and the sizes [2n // 3] and [n - 2n // 3] of the two
    splits. *)
Theorem main_wisc_prints_split_sizes (wisc : Bunch F Z) (n : Z)
    (dw : dwave B) (emb : embedding B) :
  load_breast_cancer = inr wisc ->
  len (data wisc) = n -> len (target wisc) = n ->
  Permutation (arange n) (shuffle (arange n)) ->
  DWaveSampler B = inr dw -> EmbeddingComposite B dw = inr emb ->
  exists rest,
    stdout (fst (main B prog repr fetch_openml load_breast_cancer shuffle
                   "wisc"))
    = ("Wisconsin breast cancer data set:"
         :: summary (2 * n / 3) (n - 2 * n / 3) ++ rest)%list.
Proof.
  intros Hl Hd Ht Hp H1 H2.
  assert (Hn : 0 <= n) by (rewrite <- Ht; apply len_nonneg).
  destruct (wisc_split_total wisc n _ Hn Hp Hd Ht)
    as (Xtr & ytr & Xte & yte & Hs & L1 & _ & L2 & _).
  destruct (wisc_indices_len n _ Hn Hp) as (S1 & S2).
  rewrite <- Ht in Hs at 1.
  rewrite (main_wisc B prog repr fetch_openml load_breast_cancer shuffle
             wisc Xtr Xte ytr yte Hl Hs).
  destruct (summary_is_printed B Xtr ytr Xte yte (Dyadic 1 0) false dw emb
              H1 H2) as [rest Hr].
  exists rest. cbn [fst stdout]. rewrite Hr, L1, L2, S1, S2. reflexivity.
Qed.

(** X14.  With ['mnist'], a data set of [n] rows and [n] targets and a
    sampler that can be built, the report opens with the title of the
    data set and the sizes [min(3333, n)] and
    [min(5000, n) - min(3333, n)] of the two splits. *)
Theorem main_mnist_prints_split_sizes (mnist : Bunch F string) (n : Z)
    (dw : dwave B) (emb : embedding B) :
  fetch_openml = inr mnist ->
  len (data mnist) = n -> len (target mnist) = n ->
  Permutation (arange n) (shuffle (arange n)) ->
  DWaveSampler B = inr dw -> EmbeddingComposite B dw = inr emb ->
  exists rest,
    stdout (fst (main B prog repr fetch_openml load_breast_cancer shuffle
                   "mnist"))
    = ("MNIST handwritten digits data set:"
         :: summary (Z.min 3333 n) (Z.min 5000 n - Z.min 3333 n)
         ++ rest)%list.
Proof.
  intros Hl Hd Ht Hp H1 H2.
  assert (Hn : 0 <= n) by (rewrite <- Ht; apply len_nonneg).
  destruct (mnist_split_total mnist n _ Hn Hp Hd Ht)
    as (Xtr & ytr & Xte & yte & Hs & L1 & _ & L2 & _).
  destruct (mnist_indices_len n _ Hn Hp) as (S1 & S2).
  rewrite <- Hd in Hs at 1.
  rewrite (main_mnist B prog repr fetch_openml load_breast_cancer shuffle
             mnist Xtr Xte ytr yte Hl Hs).
  destruct (summary_is_printed B Xtr ytr Xte yte (Dyadic 1 0) false dw emb
              H1 H2) as [rest Hr].
  exists rest. cbn [fst stdout]. rewrite Hr, L1, L2, S1, S2. reflexivity.
Qed.

End Selected.

(** X13 on three samples in their own order: two train, one tests. *)
Lemma main_wisc_prints_split_sizes_witness :
  exists rest,
    stdout (fst (main (Stub.backend (inr tt)) "demo.py" (fun s => s)
                   (inr {| data := [[1]; [2]; [3]];
                           target := ["0"; "5"; "4"] |})
                   (inr {| data := [[1]; [-2]; [3]]; target := [0; 1; 1] |})
                   (fun idx => idx) "wisc"))
    = ("Wisconsin breast cancer data set:" :: summary 2 1 ++ rest)%list.
Proof.
  exact (main_wisc_prints_split_sizes (Stub.backend (inr tt)) "demo.py"
           (fun s => s)
           (inr {| data := [[1]; [2]; [3]]; target := ["0"; "5"; "4"] |})
           (inr {| data := [[1]; [-2]; [3]]; target := [0; 1; 1] |})
           (fun idx => idx)
           {| data := [[1]; [-2]; [3]]; target := [0; 1; 1] |} 3 tt tt
           eq_refl eq_refl eq_refl (Permutation_refl _) eq_refl eq_refl).
Defined.

(** X14 on three samples: all three train, none tests. *)
Lemma main_mnist_prints_split_sizes_witness :
  exists rest,
    stdout (fst (main (Stub.backend (inr tt)) "demo.py" (fun s => s)
                   (inr {| data := [[1]; [2]; [3]];
                           target := ["0"; "5"; "4"] |})
                   (inr {| data := [[1]; [-2]; [3]]; target := [0; 1; 1] |})
                   (fun idx => idx) "mnist"))
    = ("MNIST handwritten digits data set:" :: summary 3 0 ++ rest)%list.
Proof.
  exact (main_mnist_prints_split_sizes (Stub.backend (inr tt)) "demo.py"
           (fun s => s)
           (inr {| data := [[1]; [2]; [3]]; target := ["0"; "5"; "4"] |})
           (inr {| data := [[1]; [-2]; [3]]; target := [0; 1; 1] |})
           (fun idx => idx)
           {| data := [[1]; [2]; [3]]; target := ["0"; "5"; "4"] |} 3 tt tt
           eq_refl eq_refl eq_refl (Permutation_refl _) eq_refl eq_refl).
Defined.

End MainFacts.

Module LabelFacts.

Import Py PyStr PyFloat Sklearn Demo Spec.
Local Open Scope string_scope.
Local Open Scope Z_scope.

Lemma compare_empty_r (s : string) :
  String.compare s "" = Eq \/ String.compare s "" = Gt.
Proof. destruct s; [now left | now right]. Qed.

(** X15.  The label of an MNIST target is decided by a comparison of
    strings: a target is labelled [+1] exactly when its first
    character is below ['4'] or the target is ['4'] itself, and [-1]
    exactly when its first character is above ['4'] or it starts with
    ['4'] and goes on; the empty string is labelled [+1].  So the
    digits 0 to 4 get [+1] and 5 to 9 get [-1], while ['10'] gets [+1]
    and ['40'] gets [-1]. *)
Theorem mnist_label_follows_first_character (c : ascii) (rest : string) :
  (spin_of_bool (String c rest <=? "4")%string = 1 <->
   (N_of_ascii c < 52)%N \/ (c = "4"%char /\ rest = "")) /\
  (spin_of_bool (String c rest <=? "4")%string = -1 <->
   (52 < N_of_ascii c)%N \/ (c = "4"%char /\ rest <> "")) /\
  spin_of_bool ("" <=? "4")%string = 1 /\
  map (fun t => spin_of_bool (t <=? "4")%string)
      ["0"; "1"; "2"; "3"; "4"; "5"; "6"; "7"; "8"; "9"; "10"; "40"]
  = [1; 1; 1; 1; 1; -1; -1; -1; -1; -1; 1; -1].
Proof.
  split; [| split; [| split; reflexivity]].
  - unfold String.leb. cbn [String.compare]. unfold Ascii.compare.
    change (N_of_ascii "4") with 52%N.
    destruct (N.compare_spec (N_of_ascii c) 52) as [E | L | G].
    + assert (Hc : c = "4"%char).
      { rewrite <- (ascii_N_embedding c), E. reflexivity. }
      destruct rest as [| c' rest]; cbn; split.
      * intros _. right. now split.
      * reflexivity.
      * discriminate.
      * intros [H | [_ H]]; [lia | discriminate].
    + cbn. split; [intros _; now left | reflexivity].
    + cbn. split; [discriminate |].
      intros [H | [-> _]]; [lia | cbn in G; lia].
  - unfold String.leb. cbn [String.compare]. unfold Ascii.compare.
    change (N_of_ascii "4") with 52%N.
    destruct (N.compare_spec (N_of_ascii c) 52) as [E | L | G].
    + assert (Hc : c = "4"%char).
      { rewrite <- (ascii_N_embedding c), E. reflexivity. }
      destruct rest as [| c' rest]; cbn; split.
      * discriminate.
      * intros [H | [_ H]]; [lia | now destruct H].
      * intros _. right. split; [exact Hc | discriminate].
      * reflexivity.
    + cbn. split; [discriminate |].
      intros [H | [-> _]]; [lia | cbn in L; lia].
    + cbn. split; [intros _; now left | reflexivity].
Qed.

End LabelFacts.

Module MetricFacts.

Import Py PyFacts PyStr PyFloat Sklearn Demo Spec.
Local Open Scope Z_scope.

Lemma count_equal_refl (y : list Z) : count_equal y y = len y.
Proof.
  unfold len. induction y as [| t y IH]; [reflexivity |].
  cbn [count_equal List.length]. rewrite Z.eqb_refl, IH. lia.
Qed.

Lemma count_equal_sym (y y_pred : list Z) :
  count_equal y y_pred = count_equal y_pred y.
Proof.
  revert y_pred. induction y as [| t y IH]; intros [| p y_pred];
    try reflexivity.
  cbn [count_equal]. now rewrite IH, Z.eqb_sym.
Qed.

Lemma true_divide_same (n : Z) : 0 < n -> true_divide n n = Dyadic (2 ^ 52) 52.
Proof.
  intros Hn. unfold true_divide.
  assert (E : (n =? 0) = false) by (apply Z.eqb_neq; lia). rewrite E.
  replace (52 + Z.log2 n - Z.log2 n) with 52 by lia.
  assert (Q : n * 2 ^ 52 / n = 2 ^ 52)
    by (rewrite Z.mul_comm; apply Z.div_mul; lia).
  rewrite Q. cbv zeta. rewrite Z.ltb_irrefl.
  unfold round_half_even. rewrite Q.
  assert (R : (n * 2 ^ 52) mod n = 0)
    by (rewrite Z.mul_comm; apply Z.mod_mul; lia).
  rewrite R.
  assert (L : (2 * 0 <? n) = true) by (apply Z.ltb_lt; lia).
  now rewrite L.
Qed.

(** X16.  [metric] of a non-empty vector against itself is 1.0, printed
    as 1.00; with no prediction right it is 0.0, printed as 0.00; it
    does not depend on the order of its two arguments; and vectors of
    different lengths make it raise [ValueError]. *)
Theorem metric_extremes_and_symmetry (y y_pred : list Z) :
  (y <> [] ->
   metric y y = inr (Dyadic (2 ^ 52) 52) /\
   format_2f (Dyadic (2 ^ 52) 52) = "1.00"%string) /\
  (y <> [] -> List.length y = List.length y_pred ->
   count_equal y y_pred = 0 ->
   metric y y_pred = inr (Dyadic 0 0) /\
   format_2f (Dyadic 0 0) = "0.00"%string) /\
  metric y y_pred = metric y_pred y /\
  (len y <> len y_pred -> metric y y_pred = inl (Exception "ValueError")).
Proof.
  assert (Hlen : y <> [] -> 0 < len y).
  { unfold len. destruct y; [congruence | simpl; lia]. }
  split; [| split; [| split]].
  - intros Hy. split; [| reflexivity].
    unfold metric, accuracy_score. rewrite Z.eqb_refl, count_equal_refl.
    now rewrite true_divide_same by auto.
  - intros Hy Hl Hc. split; [| reflexivity].
    unfold metric, accuracy_score, len. rewrite <- Hl, Z.eqb_refl, Hc.
    unfold true_divide. specialize (Hlen Hy). unfold len in Hlen.
    assert (E : (Z.of_nat (List.length y) =? 0) = false)
      by (apply Z.eqb_neq; lia).
    now rewrite E.
  - unfold metric, accuracy_score. rewrite (Z.eqb_sym (len y_pred)).
    destruct (len y =? len y_pred) eqn:E; [| reflexivity].
    apply Z.eqb_eq in E. now rewrite count_equal_sym, E.
  - intros H. unfold metric, accuracy_score.
    apply Z.eqb_neq in H. now rewrite H.
Qed.

End MetricFacts.

Module PreprocessFacts.

Import Py Sklearn Demo Spec Refit.
Local Open Scope Z_scope.

Section Transformers.

Context {F SP NP : Type}.
Context (S : Transformer F SP) (N : Transformer F NP).

(** X17.  The training matrix is preprocessed first and on its own.
    For every test matrix, one that a transformer refuses included: a
    [fit] that refuses the training matrix, the one of the scaler or
    the one of the normalizer on the scaled matrix, ends the
    preprocessing with its exception; a [fit] that refuses the test
    matrix does so only after both fits of the training matrix went
    well; and a preprocessing that succeeds returns the training
    matrix transformed by the two stages fitted on it, which the test
    matrix does not enter. *)
Theorem training_matrix_ignores_test_matrix (X_train : matrix F) :
  (forall X_test e,
     fit (Transformer := S) X_train = inl e ->
     preprocess S N X_train X_test = inl e) /\
  (forall X_test p e,
     fit (Transformer := S) X_train = inr p ->
     fit (Transformer := N) (transform p X_train) = inl e ->
     preprocess S N X_train X_test = inl e) /\
  (forall X_test p q e,
     fit (Transformer := S) X_train = inr p ->
     fit (Transformer := N) (transform p X_train) = inr q ->
     fit (Transformer := S) X_test = inl e ->
     preprocess S N X_train X_test = inl e) /\
  (forall X_test p q p' e,
     fit (Transformer := S) X_train = inr p ->
     fit (Transformer := N) (transform p X_train) = inr q ->
     fit (Transformer := S) X_test = inr p' ->
     fit (Transformer := N) (transform p' X_test) = inl e ->
     preprocess S N X_train X_test = inl e) /\
  (forall X_test sp np X1 X2,
     preprocess S N X_train X_test = inr (sp, np, X1, X2) ->
     exists p q,
       fit (Transformer := S) X_train = inr p /\
       fit (Transformer := N) (transform p X_train) = inr q /\
       X1 = transform q (transform p X_train)).
Proof.
  split; [| split; [| split; [| split]]].
  - intros X_test e H. unfold preprocess, fit_transform. now rewrite H.
  - intros X_test p e H1 H2. unfold preprocess, fit_transform.
    now rewrite H1, H2.
  - intros X_test p q e H1 H2 H3. unfold preprocess, fit_transform.
    now rewrite H1, H2, H3.
  - intros X_test p q p' e H1 H2 H3 H4. unfold preprocess, fit_transform.
    now rewrite H1, H2, H3, H4.
  - intros X_test sp np X1 X2 H.
    destruct (preprocess_inv S N _ _ _ _ _ _ H)
      as (p1 & q1 & p2 & q2 & F1 & F2 & -> & _).
    now exists p1, q1.
Qed.

End Transformers.

(** X17 with a scaler that refuses a matrix without rows with
    [ValueError] and one whose first row is empty with [IndexError]:
    beside an empty training matrix the preprocessing ends in
    [ValueError] also when the test matrix would be refused with
    [IndexError], and the other way round. *)
Lemma training_matrix_ignores_test_matrix_witness :
  preprocess Stub.picky Stub.keep [] [[]] = inl (Exception "ValueError") /\
  preprocess Stub.picky Stub.keep [[]] [] = inl (Exception "IndexError").
Proof.
  split.
  - exact (proj1 (training_matrix_ignores_test_matrix Stub.picky Stub.keep [])
             [[]] (Exception "ValueError") eq_refl).
  - exact (proj1 (training_matrix_ignores_test_matrix Stub.picky Stub.keep
                    [[]])
             [] (Exception "IndexError") eq_refl).
Defined.

End PreprocessFacts.
